(** * Course schedule resolution engine of Project-Synapse

    Shallow embedding of
    - [src/config/course_schedule_config.py] (period table, weekday map,
      semester repository),
    - [src/utils/course_schedule_parser.py] ([CourseScheduleParser]),
    - the session generation of [src/intergrations/notion/processor.py]
      ([_generate_course_sessions]: smart mode and legacy fallback;
      [_build_properties_from_csv_row]),
    - [src/utils/course_import_processor.py] ([parse_course_row]),
    - the semester import of [src/utils/google_calendar_sync.py]
      ([_store_semester_date], [validate_semester_data],
      [apply_semesters_to_config]).

    Python strings are lists of Unicode code points ([Z]).  Python
    exceptions are the [Raise] branch of the small result type [exc]. *)

From Stdlib Require Import List ZArith Lia Bool String Ascii Permutation Sorted.
Import ListNotations.
Open Scope Z_scope.

(** ** Python runtime fragment *)

Inductive py_error : Type :=
| ValueError
| OverflowError.

Inductive exc (A : Type) : Type :=
| Ok (a : A)
| Raise (e : py_error).
Arguments Ok {A} a.
Arguments Raise {A} e.

Definition exc_bind {A B : Type} (m : exc A) (f : A -> exc B) : exc B :=
  match m with
  | Ok a => f a
  | Raise e => Raise e
  end.

Notation "'let*' x ':=' m 'in' f" := (exc_bind m (fun x => f))
  (at level 200, x ident, m at level 100, f at level 200).

(** A Python [str]: its code points. *)
Definition pystr := list Z.

(** ASCII literal as a Python string. *)
Fixpoint lit (s : string) : pystr :=
  match s with
  | EmptyString => []
  | String a r => Z.of_nat (nat_of_ascii a) :: lit r
  end.

Fixpoint pystr_eqb (a b : pystr) : bool :=
  match a, b with
  | [], [] => true
  | x :: a', y :: b' => (x =? y) && pystr_eqb a' b'
  | _, _ => false
  end.

(** [dict.get] on a dictionary given by its (key, value) pairs. *)
Fixpoint dict_get {K V : Type} (eqb : K -> K -> bool) (k : K)
    (d : list (K * V)) : option V :=
  match d with
  | [] => None
  | (k', v) :: d' => if eqb k k' then Some v else dict_get eqb k d'
  end.

(** [d[k] = v] on such a dictionary: replace in place, or append. *)
Fixpoint dict_set {K V : Type} (eqb : K -> K -> bool) (k : K) (v : V)
    (d : list (K * V)) : list (K * V) :=
  match d with
  | [] => [(k, v)]
  | (k', v') :: d' =>
      if eqb k k' then (k', v) :: d' else (k', v') :: dict_set eqb k v d'
  end.

(** [str.isspace] code points (the whitespace [str.strip()] removes). *)
Definition is_space (c : Z) : bool :=
  existsb (Z.eqb c)
    [9; 10; 11; 12; 13; 28; 29; 30; 31; 32; 133; 160; 5760;
     8192; 8193; 8194; 8195; 8196; 8197; 8198; 8199; 8200; 8201; 8202;
     8232; 8233; 8239; 8287; 12288].

(** Unicode decimal digits (general category Nd), which Python's [\d]
    matches in a [str] pattern and [int] accepts.  They come in runs of
    ten, [0] to [9]; these are the code points of the zeros in the
    Unicode 14.0 table of CPython 3.11. *)
Definition decimal_zeros : list Z :=
  [48; 1632; 1776; 1984; 2406; 2534; 2662; 2790; 2918; 3046; 3174;
   3302; 3430; 3558; 3664; 3792; 3872; 4160; 4240; 6112; 6160; 6470;
   6608; 6784; 6800; 6992; 7088; 7232; 7248; 42528; 43216; 43264;
   43472; 43504; 43600; 44016; 65296; 66720; 68912; 69734; 69872;
   69942; 70096; 70384; 70736; 70864; 71248; 71360; 71472; 71904;
   72016; 72784; 73040; 73120; 92768; 92864; 93008; 120782; 120792;
   120802; 120812; 120822; 123200; 123632; 125264; 130032].

Fixpoint zero_of (zs : list Z) (c : Z) : option Z :=
  match zs with
  | [] => None
  | z :: r => if (z <=? c) && (c <=? z + 9) then Some z else zero_of r c
  end.

(** The zero of the run of [c], when [c] is a decimal digit. *)
Definition digit_zero (c : Z) : option Z := zero_of decimal_zeros c.

Definition is_digit (c : Z) : bool :=
  match digit_zero c with Some _ => true | None => false end.

(** [unicodedata.decimal(c)]. *)
Definition digit_val (c : Z) : Z :=
  match digit_zero c with Some z => c - z | None => 0 end.

Definition is_ascii_digit (c : Z) : bool := (48 <=? c) && (c <=? 57).

(** [Py_ISSPACE]: the whitespace [PyLong_FromString] skips. *)
Definition is_ascii_space (c : Z) : bool := existsb (Z.eqb c) [9; 10; 11; 12; 13; 32].

Fixpoint drop_while (p : Z -> bool) (l : pystr) : pystr :=
  match l with
  | [] => []
  | c :: r => if p c then drop_while p r else l
  end.

(** [str.strip()] and [str.strip(chars)]. *)
Definition strip_by (p : Z -> bool) (l : pystr) : pystr :=
  rev (drop_while p (rev (drop_while p l))).
Definition strip_ws (l : pystr) : pystr := strip_by is_space l.

(** [str.split(sep)] with a one-character separator. *)
Fixpoint split_on (sep : Z) (l : pystr) : list pystr :=
  match l with
  | [] => [[]]
  | c :: r =>
      if c =? sep then [] :: split_on sep r
      else match split_on sep r with
           | p :: ps => (c :: p) :: ps
           | [] => [[c]]
           end
  end.

(** [int(s)] for a [str] [s] ([PyLong_FromUnicodeObject]).  A string
    that is not all ASCII is first rewritten character by character
    ([_PyUnicode_TransformDecimalAndSpaceToASCII]): a character below
    127 is kept, other whitespace becomes a space, a decimal digit its
    ASCII digit, anything else ['?'] (which no literal contains).  Then
    [PyLong_FromString] reads ASCII whitespace, one optional sign,
    digits with single underscores between them, ASCII whitespace, and
    CPython's default limit of 4300 digits applies
    ([sys.int_info.default_max_str_digits]). *)
Definition int_ascii_char (c : Z) : Z :=
  if c <? 127 then c
  else if is_space c then 32
  else match digit_zero c with Some z => 48 + (c - z) | None => 63 end.

Definition int_text (s : pystr) : pystr :=
  if forallb (fun c => c <? 128) s then s else map int_ascii_char s.

Fixpoint valid_body (prev_digit : bool) (l : pystr) : bool :=
  match l with
  | [] => prev_digit
  | c :: r =>
      if is_ascii_digit c then valid_body true r
      else if c =? 95 then prev_digit && valid_body false r
      else false
  end.

Fixpoint digits_value (acc : Z) (l : pystr) : Z :=
  match l with
  | [] => acc
  | c :: r => digits_value (acc * 10 + (c - 48)) r
  end.

Definition int_max_str_digits : Z := 4300.

Definition py_int (s : pystr) : exc Z :=
  let t := strip_by is_ascii_space (int_text s) in
  let '(sign, body) :=
    match t with
    | c :: r => if c =? 45 then (-1, r) else if c =? 43 then (1, r) else (1, t)
    | [] => (1, [])
    end in
  if negb (valid_body false body) then Raise ValueError
  else
    let ds := List.filter is_ascii_digit body in
    if int_max_str_digits <? Z.of_nat (List.length ds) then Raise ValueError
    else Ok (sign * digits_value 0 ds).

(** The number a run of decimal digits denotes. *)
Definition decimal_value (d : pystr) : Z :=
  digits_value 0 (map (fun c => 48 + digit_val c) d).

(** All decimal digits, run by run. *)
Definition digit_points : list Z :=
  flat_map (fun z => map (Z.add z) [0; 1; 2; 3; 4; 5; 6; 7; 8; 9]) decimal_zeros.

(** Stable sort ([list.sort(key=...)]): insertion after every element
    whose key is not greater. [lt] is "key strictly less". *)
Section StableSort.
Context {A : Type} (lt : A -> A -> bool).

Fixpoint insert_stable (x : A) (l : list A) : list A :=
  match l with
  | [] => [x]
  | y :: ys => if lt x y then x :: l else y :: insert_stable x ys
  end.

Definition sort_stable (l : list A) : list A :=
  fold_left (fun acc x => insert_stable x acc) l [].
End StableSort.

(** ** [config/course_schedule_config.py] *)

(** [datetime.time(h, m)], as minutes since midnight. *)
Definition hm (h m : Z) : Z := h * 60 + m.

Definition CLASS_PERIODS : list (Z * (Z * Z)) :=
  [(1, (hm 6 10, hm 7 0)); (2, (hm 7 10, hm 8 0)); (3, (hm 8 10, hm 9 0));
   (4, (hm 9 10, hm 10 0)); (5, (hm 10 20, hm 11 10));
   (6, (hm 11 20, hm 12 10)); (7, (hm 12 10, hm 13 0));
   (8, (hm 13 10, hm 14 0)); (9, (hm 14 10, hm 15 0));
   (10, (hm 15 10, hm 16 0)); (11, (hm 16 20, hm 17 10));
   (12, (hm 17 20, hm 18 10)); (13, (hm 18 30, hm 19 20));
   (14, (hm 19 30, hm 20 20))].

Definition get_period_time (period : Z) : option (Z * Z) :=
  dict_get Z.eqb period CLASS_PERIODS.

(** The weekday characters 一 二 三 四 五 六 日. *)
Definition ch_mon : Z := 19968.
Definition ch_tue : Z := 20108.
Definition ch_wed : Z := 19977.
Definition ch_thu : Z := 22235.
Definition ch_fri : Z := 20116.
Definition ch_sat : Z := 20845.
Definition ch_sun : Z := 26085.

Definition WEEKDAY_MAP : list (pystr * Z) :=
  [([ch_mon], 0); ([ch_tue], 1); ([ch_wed], 2); ([ch_thu], 3);
   ([ch_fri], 4); ([ch_sat], 5); ([ch_sun], 6);
   (lit "Mon", 0); (lit "Monday", 0);
   (lit "Tue", 1); (lit "Tuesday", 1);
   (lit "Wed", 2); (lit "Wednesday", 2);
   (lit "Thu", 3); (lit "Thursday", 3);
   (lit "Fri", 4); (lit "Friday", 4);
   (lit "Sat", 5); (lit "Saturday", 5);
   (lit "Sun", 6); (lit "Sunday", 6)].

(** ** [utils/course_schedule_parser.py]: notation parser *)

Record ClassSession : Type := {
  weekday : Z;
  start_period : Z;
  end_period : Z;
  start_time : Z;
  end_time : Z
}.

(** The character class [[一二三四五六日a-zA-Z]]. *)
Definition is_wd_char (c : Z) : bool :=
  existsb (Z.eqb c) [ch_mon; ch_tue; ch_wed; ch_thu; ch_fri; ch_sat; ch_sun]
  || (65 <=? c) && (c <=? 90) || (97 <=? c) && (c <=? 122).

Fixpoint span (p : Z -> bool) (l : pystr) : pystr * pystr :=
  match l with
  | [] => ([], [])
  | c :: r => if p c then let (a, b) := span p r in (c :: a, b) else ([], l)
  end.

(** A match of [([一二三四五六日a-zA-Z]+)(\d+)] at the head of [s]: both
    runs are greedy, and since the two classes are disjoint, backtracking
    the first run never lets a shorter run be followed by a digit. *)
Definition match_at (s : pystr) : option (pystr * pystr * pystr) :=
  let (w, r1) := span is_wd_char s in
  let (d, r2) := span is_digit r1 in
  match w, d with
  | _ :: _, _ :: _ => Some (w, d, r2)
  | _, _ => None
  end.

(** [re.findall]: try a match at each position, resume after a match. *)
Fixpoint findall_fuel (fuel : nat) (s : pystr) : list (pystr * pystr) :=
  match fuel with
  | O => []
  | S f =>
      match s with
      | [] => []
      | _ :: s' =>
          match match_at s with
          | Some (w, d, r) => (w, d) :: findall_fuel f r
          | None => findall_fuel f s'
          end
      end
  end.

Definition findall (s : pystr) : list (pystr * pystr) :=
  findall_fuel (List.length s) s.

(** The [for match in matches] loop of [_parse_single_schedule]: [None]
    is its early [return []]. *)
Fixpoint collect_periods (weekday : option Z) (periods : list Z)
    (matches : list (pystr * pystr)) : exc (option (option Z * list Z)) :=
  match matches with
  | [] => Ok (Some (weekday, periods))
  | (weekday_str, period_str) :: rest =>
      let* period := py_int period_str in
      match weekday with
      | None =>
          match dict_get pystr_eqb weekday_str WEEKDAY_MAP with
          | None => Ok None
          | Some w => collect_periods (Some w) (periods ++ [period]) rest
          end
      | Some w => collect_periods (Some w) (periods ++ [period]) rest
      end
  end.

Definition list_min (l : list Z) : Z :=
  match l with [] => 0 | x :: r => fold_left Z.min r x end.
Definition list_max (l : list Z) : Z :=
  match l with [] => 0 | x :: r => fold_left Z.max r x end.

Definition parse_single_schedule (schedule_str : pystr)
    : exc (list ClassSession) :=
  match findall schedule_str with
  | [] => Ok []
  | matches =>
      let* r := collect_periods None [] matches in
      match r with
      | None => Ok []
      | Some (wd, periods) =>
          match periods, wd with
          | [], _ => Ok []
          | _, None => Ok []
          | _, Some w =>
              let min_period := list_min periods in
              let max_period := list_max periods in
              match get_period_time min_period, get_period_time max_period with
              | Some (st, _), Some (_, et) =>
                  Ok [{| weekday := w; start_period := min_period;
                         end_period := max_period; start_time := st;
                         end_time := et |}]
              | _, _ => Ok []
              end
          end
      end
  end.

Fixpoint parse_parts (parts : list pystr) : exc (list ClassSession) :=
  match parts with
  | [] => Ok []
  | p :: ps =>
      let* s := parse_single_schedule (strip_ws p) in
      let* r := parse_parts ps in
      Ok (s ++ r)
  end.

(** Sort key [(x.weekday, x.start_period)]. *)
Definition session_key_lt (a b : ClassSession) : bool :=
  (weekday a <? weekday b)
  || (weekday a =? weekday b) && (start_period a <? start_period b).

Definition parse_schedule (schedule_str : pystr) : exc (list ClassSession) :=
  let* sessions := parse_parts (split_on 44 schedule_str) in
  Ok (sort_stable session_key_lt sessions).

Definition slash : Z := 47.

(** ** Dates: [datetime.datetime] *)

(** A naive [datetime]: its proleptic Gregorian ordinal
    ([date.toordinal()]) and its time of day in microseconds. *)
Record datetime : Type := {
  dt_ord : Z;
  dt_tod : Z
}.

Definition is_leap (y : Z) : bool :=
  (Z.modulo y 4 =? 0) && (negb (Z.modulo y 100 =? 0) || (Z.modulo y 400 =? 0)).

Definition days_before_month (y m : Z) : Z :=
  nth (Z.to_nat m) [0; 0; 31; 59; 90; 120; 151; 181; 212; 243; 273; 304; 334] 0
  + (if (2 <? m) && is_leap y then 1 else 0).

(** [datetime._ymd2ord]. *)
Definition ymd2ord (y m d : Z) : Z :=
  let y1 := y - 1 in
  y1 * 365 + y1 / 4 - y1 / 100 + y1 / 400 + days_before_month y m + d.

(** [datetime(y, m, d)]: midnight. *)
Definition mk_dt (y m d : Z) : datetime := {| dt_ord := ymd2ord y m d; dt_tod := 0 |}.

(** [datetime.max.toordinal()]. *)
Definition MAXORDINAL : Z := 3652059.

(** [dt.weekday()]: Monday is 0. *)
Definition dt_weekday (d : datetime) : Z := Z.modulo (dt_ord d + 6) 7.

Definition dt_eqb (a b : datetime) : bool :=
  (dt_ord a =? dt_ord b) && (dt_tod a =? dt_tod b).
Definition dt_ltb (a b : datetime) : bool :=
  (dt_ord a <? dt_ord b) || (dt_ord a =? dt_ord b) && (dt_tod a <? dt_tod b).
Definition dt_leb (a b : datetime) : bool := dt_ltb a b || dt_eqb a b.

(** [dt + timedelta(days=n)]; [OverflowError] outside years 1..9999. *)
Definition add_days (d : datetime) (n : Z) : exc datetime :=
  let o := dt_ord d + n in
  if (o <? 1) || (MAXORDINAL <? o) then Raise OverflowError
  else Ok {| dt_ord := o; dt_tod := dt_tod d |}.


(** ** Semester repository ([SEMESTER_DATABASE]) *)

Record Semester : Type := {
  year : Z;
  semester : Z;
  start_date : datetime;
  end_date : datetime
}.

Definition key_eqb (a b : Z * Z) : bool := (fst a =? fst b) && (snd a =? snd b).

Definition mk_sem (y s : Z) (st en : datetime) : (Z * Z) * Semester :=
  ((y, s), {| year := y; semester := s; start_date := st; end_date := en |}).

Definition SEMESTER_DATABASE : list ((Z * Z) * Semester) :=
  [mk_sem 113 1 (mk_dt 2024 9 1) (mk_dt 2025 1 31);
   mk_sem 113 2 (mk_dt 2025 2 1) (mk_dt 2025 6 30);
   mk_sem 114 1 (mk_dt 2025 9 1) (mk_dt 2026 1 31);
   mk_sem 114 2 (mk_dt 2026 2 23) (mk_dt 2026 6 30);
   mk_sem 115 1 (mk_dt 2026 9 1) (mk_dt 2027 1 31);
   mk_sem 115 2 (mk_dt 2027 2 1) (mk_dt 2027 6 30)].

(** The repository is process-wide mutable state; it is passed
    explicitly. *)
Definition get_semester_info (db : list ((Z * Z) * Semester)) (y s : Z)
    : option Semester :=
  dict_get key_eqb (y, s) db.

Definition update_semester_info (db : list ((Z * Z) * Semester))
    (y s : Z) (st en : datetime) : list ((Z * Z) * Semester) :=
  dict_set key_eqb (y, s) {| year := y; semester := s; start_date := st;
                            end_date := en |} db.

(** ** [get_class_dates]: date expander *)

(** One emitted dictionary; its ['session_info'] entry is display text
    ([str(session)]) and is left out. *)
Record Occurrence : Type := {
  oc_date : datetime;
  oc_weekday : Z;
  oc_start_time : Z;
  oc_end_time : Z;
  oc_start_period : Z;
  oc_end_period : Z
}.

(** The [for session in sessions] body for one [current_date]. *)
Fixpoint day_occurrences (current_date : datetime)
    (exclude_dates : list datetime) (sessions : list ClassSession)
    : list Occurrence :=
  match sessions with
  | [] => []
  | s :: ss =>
      let rest := day_occurrences current_date exclude_dates ss in
      if dt_weekday current_date =? weekday s then
        if negb (existsb (dt_eqb current_date) exclude_dates) then
          {| oc_date := current_date; oc_weekday := weekday s;
             oc_start_time := start_time s; oc_end_time := end_time s;
             oc_start_period := start_period s; oc_end_period := end_period s |}
          :: rest
        else rest
      else rest
  end.

(** The [while current_date <= semester.end_date] loop.  [fuel] bounds
    the iterations; [get_class_dates] gives one more than the loop can
    run, so the loop always stops on its own condition. *)
Fixpoint date_loop (fuel : nat) (end_dt current_date : datetime)
    (sessions : list ClassSession) (exclude_dates : list datetime)
    : exc (list Occurrence) :=
  match fuel with
  | O => Ok []
  | S f =>
      if dt_leb current_date end_dt then
        let here := day_occurrences current_date exclude_dates sessions in
        let* next := add_days current_date 1 in
        let* rest := date_loop f end_dt next sessions exclude_dates in
        Ok (here ++ rest)
      else Ok []
  end.

Definition get_class_dates (db : list ((Z * Z) * Semester))
    (sessions : list ClassSession) (semester_year semester_num : Z)
    (exclude_dates : list datetime) : exc (list Occurrence) :=
  match get_semester_info db semester_year semester_num with
  | None => Ok []
  | Some sem =>
      date_loop (Z.to_nat (dt_ord (end_date sem) - dt_ord (start_date sem) + 2))
        (end_date sem) (start_date sem) sessions exclude_dates
  end.

(** ** [_generate_course_sessions]: merger and week indexer *)

Record TeachingBlock : Type := {
  tb_date : datetime;
  tb_start_time : Z;
  tb_end_time : Z;
  tb_week : Z
}.

(** Sort key [(x['date'], x['start_time'])]. *)
Definition occ_key_lt (a b : Occurrence) : bool :=
  dt_ltb (oc_date a) (oc_date b)
  || dt_eqb (oc_date a) (oc_date b) && (oc_start_time a <? oc_start_time b).

(** [itertools.groupby(class_dates, key=lambda x: x['date'])]. *)
Fixpoint groupby_date (l : list Occurrence) : list (datetime * list Occurrence) :=
  match l with
  | [] => []
  | x :: xs =>
      match groupby_date xs with
      | (k, g) :: rest =>
          if dt_eqb (oc_date x) k then (oc_date x, x :: g) :: rest
          else (oc_date x, [x]) :: (k, g) :: rest
      | [] => [(oc_date x, [x])]
      end
  end.

(** [(d1 - d2).days // 7 + 1] on the date parts. *)
Definition week_of (anchor d : datetime) : Z := (dt_ord d - dt_ord anchor) / 7 + 1.

(** The [for date_key, group in ...] loop, with its [continue] for weeks
    past 18. *)
Fixpoint emit_blocks (anchor : datetime) (groups : list (datetime * list Occurrence))
    : list TeachingBlock :=
  match groups with
  | [] => []
  | (date_key, []) :: rest => emit_blocks anchor rest
  | (date_key, o :: g) :: rest =>
      let current_week := week_of anchor date_key in
      if 18 <? current_week then emit_blocks anchor rest
      else {| tb_date := date_key; tb_start_time := oc_start_time o;
              tb_end_time := oc_end_time (last (o :: g) o);
              tb_week := current_week |} :: emit_blocks anchor rest
  end.

(** Sort, anchor on the first class date, group and index. *)
Definition merge_class_dates (class_dates : list Occurrence) : list TeachingBlock :=
  let sorted := sort_stable occ_key_lt class_dates in
  match sorted with
  | [] => []
  | o :: _ => emit_blocks (oc_date o) (groupby_date sorted)
  end.

(** Smart mode for integer year and semester: semester lookup, parsing,
    expansion and merging. *)
Definition smart_mode (db : list ((Z * Z) * Semester)) (y sem : Z)
    (schedule_str : pystr) : exc (list TeachingBlock) :=
  match get_semester_info db y sem with
  | None => Ok []
  | Some _ =>
      let* parsed_schedule := parse_schedule schedule_str in
      match parsed_schedule with
      | [] => Ok []
      | _ =>
          let* class_dates := get_class_dates db parsed_schedule y sem [] in
          Ok (merge_class_dates class_dates)
      end
  end.

(** [except ValueError] around the smart mode. *)
Definition catch_value_error {A : Type} (m : exc A) (dflt : A) : exc A :=
  match m with
  | Raise ValueError => Ok dflt
  | _ => m
  end.

(** The smart-mode block of [_generate_course_sessions] from the row's
    strings ([if year_str and sem_str and schedule_str: try ...]). *)
Definition smart_mode_strs (db : list ((Z * Z) * Semester))
    (year_str sem_str schedule_str : pystr) : exc (list TeachingBlock) :=
  match year_str, sem_str, schedule_str with
  | _ :: _, _ :: _, _ :: _ =>
      catch_value_error
        (let* y := py_int year_str in
         let* s := py_int sem_str in
         smart_mode db y s schedule_str) []
  | _, _, _ => Ok []
  end.

(** ** Legacy fallback *)







Definition wed_9_11 : pystr := [ch_wed; 57; 44; ch_wed; 49; 48; 44; ch_wed; 49; 49].

(** ** [utils/course_import_processor.py]: course row interpreter *)

(** A CSV row ([Dict[str, str]]). *)
Definition row := list (pystr * pystr).

Definition row_get (r : row) (k : pystr) : option pystr := dict_get pystr_eqb k r.

(** Truthiness of a [str] or [None]. *)
Definition truthy (v : option pystr) : bool :=
  match v with Some (_ :: _) => true | _ => false end.

(** Python's [a or b]. *)
Definition py_or (a b : option pystr) : option pystr := if truthy a then a else b.

(** The header spellings 学年 学期 课程代码 课程名称 教师 上课时间
    上课时数/学分. *)
Definition k_year_zh : pystr := [23398; 24180].
Definition k_semester_zh : pystr := [23398; 26399].
Definition k_code_zh : pystr := [35838; 31243; 20195; 30721].
Definition k_name_zh : pystr := [35838; 31243; 21517; 31216].
Definition k_instructor_zh : pystr := [25945; 24072].
Definition k_schedule_zh : pystr := [19978; 35838; 26102; 38388].
Definition k_credits_zh : pystr := [19978; 35838; 26102; 25968; 47; 23398; 20998].

Definition get3 (r : row) (k1 k2 k3 : pystr) : option pystr :=
  py_or (row_get r k1) (py_or (row_get r k2) (row_get r k3)).

Definition row_year (r : row) := get3 r k_year_zh (lit "Year") (lit "year").
Definition row_semester (r : row) := get3 r k_semester_zh (lit "Semester") (lit "semester").
Definition row_code (r : row) := get3 r k_code_zh (lit "Code") (lit "code").
Definition row_name (r : row) := get3 r k_name_zh (lit "Name") (lit "name").
Definition row_instructor (r : row) :=
  get3 r k_instructor_zh (lit "Instructor") (lit "instructor").
Definition row_schedule (r : row) := get3 r k_schedule_zh (lit "Schedule") (lit "schedule").
Definition row_credits (r : row) := get3 r k_credits_zh (lit "Credits") (lit "credits").

(** The returned dictionary; its ['schedule_display'] entry is display
    text ([format_schedule_display]) and is left out. *)
Record CourseRecord : Type := {
  c_year : Z;
  c_semester : Z;
  c_code : option pystr;
  c_name : pystr;
  c_instructor : pystr;
  c_schedule_str : pystr;
  c_schedule_sessions : list ClassSession;
  c_hours : option Z;
  c_credits : option Z
}.

(** The [try: parts = credits_str.split('/') ... except: pass] block:
    [hours] keeps its value when only [int(parts[1])] fails. *)
Definition parse_credits (credits_str : option pystr) : option Z * option Z :=
  match credits_str with
  | Some ((_ :: _) as cs) =>
      let parts := split_on slash cs in
      match py_int (nth 0 parts []) with
      | Raise _ => (None, None)
      | Ok h =>
          match parts with
          | _ :: p1 :: _ =>
              match py_int p1 with
              | Ok c => (Some h, Some c)
              | Raise _ => (Some h, None)
              end
          | _ => (Some h, None)
          end
      end
  | _ => (None, None)
  end.

Definition strip_slashes (v : option pystr) : pystr :=
  match v with
  | Some ((_ :: _) as s) => strip_by (Z.eqb slash) s
  | _ => []
  end.

(** The body of the outer [try] of [parse_course_row]. *)
Definition parse_course_row_body (r : row) : exc (option CourseRecord) :=
  let year := row_year r in
  let semester := row_semester r in
  let name := row_name r in
  let schedule_str := row_schedule r in
  if negb (truthy year && truthy semester && truthy name && truthy schedule_str)
  then Ok None
  else
    match year, semester, schedule_str with
    | Some y, Some s, Some sch =>
        match (let* yv := py_int y in let* sv := py_int s in Ok (yv, sv)) with
        | Raise ValueError => Ok None
        | Raise e => Raise e
        | Ok (yv, sv) =>
            let* schedule_sessions := parse_schedule sch in
            match schedule_sessions with
            | [] => Ok None
            | _ =>
                let (hours, credits) := parse_credits (row_credits r) in
                Ok (Some {| c_year := yv; c_semester := sv; c_code := row_code r;
                            c_name := strip_slashes name;
                            c_instructor := strip_slashes (row_instructor r);
                            c_schedule_str := sch;
                            c_schedule_sessions := schedule_sessions;
                            c_hours := hours; c_credits := credits |})
            end
        end
    | _, _, _ => Ok None
    end.

(** [except Exception as e: logger.error(...); return None]. *)
Definition try_except_all {A : Type} (m : exc A) (handler : py_error -> A) : exc A :=
  match m with
  | Ok a => Ok a
  | Raise e => Ok (handler e)
  end.

Definition parse_course_row (r : row) : exc (option CourseRecord) :=
  try_except_all (parse_course_row_body r) (fun _ => None).

Definition sample_row : row :=
  [(k_year_zh, lit "114"); (k_semester_zh, lit "1"); (k_code_zh, lit "CP__20500");
   (k_name_zh, lit "/Theory"); (k_instructor_zh, lit "Yu");
   (k_schedule_zh, [ch_wed; 57; slash; ch_wed; 49; 48; slash; ch_wed; 49; 49]);
   (k_credits_zh, lit "3/3")].


(** ** Vocabulary of the statements *)

(** One token [weekday period] of a notation group, optionally preceded
    by a slash. *)
Record token : Type := {
  tk_slash : bool;
  tk_wd : pystr;
  tk_digits : pystr
}.

Definition token_str (t : token) : pystr :=
  (if tk_slash t then [slash] else []) ++ tk_wd t ++ tk_digits t.

Definition group_str (ts : list token) : pystr := flat_map token_str ts.

Definition token_wf (t : token) : Prop :=
  tk_wd t <> [] /\ Forall (fun c => is_wd_char c = true) (tk_wd t) /\
  tk_digits t <> [] /\ Forall (fun c => is_digit c = true) (tk_digits t).

(** The period number of a token: [int] of its digit run. *)
Definition token_period (t : token) : Z := decimal_value (tk_digits t).

(** [str(n)] for [n >= 0]. *)
Fixpoint dec_digits (fuel : nat) (n : Z) (acc : pystr) : pystr :=
  match fuel with
  | O => acc
  | S f =>
      let acc' := (48 + n mod 10) :: acc in
      if n <? 10 then acc' else dec_digits f (n / 10) acc'
  end.

Definition dec (n : Z) : pystr := dec_digits (S (Z.to_nat n)) n [].

(** The blocks of [merge_class_dates] with their computed week indices,
    before the blocks past week 18 are dropped. *)
Fixpoint index_groups (anchor : datetime) (groups : list (datetime * list Occurrence))
    : list TeachingBlock :=
  match groups with
  | [] => []
  | (date_key, []) :: rest => index_groups anchor rest
  | (date_key, o :: g) :: rest =>
      {| tb_date := date_key; tb_start_time := oc_start_time o;
         tb_end_time := oc_end_time (last (o :: g) o);
         tb_week := week_of anchor date_key |} :: index_groups anchor rest
  end.

Definition merge_unfiltered (class_dates : list Occurrence) : list TeachingBlock :=
  let sorted := sort_stable occ_key_lt class_dates in
  match sorted with
  | [] => []
  | o :: _ => index_groups (oc_date o) (groupby_date sorted)
  end.

Definition exc_map {A B : Type} (f : A -> B) (m : exc A) : exc B :=
  match m with
  | Ok a => Ok (f a)
  | Raise e => Raise e
  end.

Definition block_of (anchor k : datetime) (o : Occurrence) (g : list Occurrence)
    : TeachingBlock :=
  {| tb_date := k; tb_start_time := oc_start_time o;
     tb_end_time := oc_end_time (last (o :: g) o); tb_week := week_of anchor k |}.

(** 三3/三4/三5/三6,三4: a four-period group and a one-period group
    nested in it, both on Wednesday. *)
Definition nested_wed : pystr :=
  [ch_wed; 51; slash; ch_wed; 52; slash; ch_wed; 53; slash; ch_wed; 54; 44; ch_wed; 52].

(** Its two occurrences on 2025-09-03. *)
Definition nested_long : Occurrence :=
  {| oc_date := mk_dt 2025 9 3; oc_weekday := 2; oc_start_time := hm 8 10;
     oc_end_time := hm 12 10; oc_start_period := 3; oc_end_period := 6 |}.

Definition nested_day : list Occurrence :=
  [nested_long;
   {| oc_date := mk_dt 2025 9 3; oc_weekday := 2; oc_start_time := hm 9 10;
      oc_end_time := hm 10 0; oc_start_period := 4; oc_end_period := 4 |}].

Definition nested_day_block : TeachingBlock :=
  {| tb_date := mk_dt 2025 9 3; tb_start_time := hm 8 10; tb_end_time := hm 10 0;
     tb_week := 1 |}.

Definition wed_session : ClassSession :=
  {| weekday := 2; start_period := 9; end_period := 11;
     start_time := hm 14 10; end_time := hm 17 10 |}.

Definition sem_114_1 : Semester :=
  {| year := 114; semester := 1; start_date := mk_dt 2025 9 1;
     end_date := mk_dt 2026 1 31 |}.

Definition not_excluded (E : list datetime) (o : Occurrence) : bool :=
  negb (existsb (dt_eqb (oc_date o)) E).

(** The characters of a well-formed group: slashes, weekday letters and
    digits. *)
Definition group_char (c : Z) : Prop :=
  c = slash \/ is_wd_char c = true \/ is_digit c = true.

Definition token_match (t : token) : pystr * pystr := (tk_wd t, tk_digits t).






(** The sample row without its schedule column. *)
Definition row_without_schedule : row :=
  List.filter (fun kv => negb (pystr_eqb (fst kv) k_schedule_zh)) sample_row.


(** ** Further definitions *)
(** 三9/三10 and 五4 as sessions. *)
Definition wed_session_9_10 : ClassSession :=
  {| weekday := 2; start_period := 9; end_period := 10;
     start_time := hm 14 10; end_time := hm 16 0 |}.

Definition fri_session_4 : ClassSession :=
  {| weekday := 4; start_period := 4; end_period := 4;
     start_time := hm 9 10; end_time := hm 10 0 |}.

(** The tokens Xyz9, /三10, 三9 and /三15. *)
Definition xyz_token_9 : token := {| tk_slash := false; tk_wd := lit "Xyz"; tk_digits := [57] |}.
Definition wed_token_10 : token := {| tk_slash := true; tk_wd := [ch_wed]; tk_digits := [49; 48] |}.
Definition wed_token_9 : token := {| tk_slash := false; tk_wd := [ch_wed]; tk_digits := [57] |}.
Definition wed_token_15 : token := {| tk_slash := true; tk_wd := [ch_wed]; tk_digits := [49; 53] |}.


(** The occurrence [get_class_dates] emits for [session] on [d]. *)
Definition mk_occ (d : datetime) (s : ClassSession) : Occurrence :=
  {| oc_date := d; oc_weekday := weekday s; oc_start_time := start_time s;
     oc_end_time := end_time s; oc_start_period := start_period s;
     oc_end_period := end_period s |}.

(** ** [GoogleCalendarIntegration]: semester dates read from a calendar *)

(** The inner dict [{'start': ..., 'end': ...}] of a semester; a key
    not yet set is [None]. *)
Record SemDates : Type := {
  sd_start : option datetime;
  sd_end : option datetime
}.

Definition empty_dates : SemDates := {| sd_start := None; sd_end := None |}.

(** [_store_semester_date]: create [{}] for a new key, then set
    ['start'] or ['end']. *)
Definition store_semester_date (semesters : list ((Z * Z) * SemDates))
    (y s : Z) (date : datetime) (is_start : bool) : list ((Z * Z) * SemDates) :=
  let cur := match dict_get key_eqb (y, s) semesters with
             | Some v => v
             | None => empty_dates
             end in
  dict_set key_eqb (y, s)
    (if is_start then {| sd_start := Some date; sd_end := sd_end cur |}
     else {| sd_start := sd_start cur; sd_end := Some date |}) semesters.

(** [validate_semester_data]: keep the entries with both dates and
    [start < end], in iteration order. *)
Definition validate_semester_data (semesters : list ((Z * Z) * SemDates))
    : list ((Z * Z) * SemDates) :=
  fold_left (fun valid_semesters kv =>
    match sd_start (snd kv), sd_end (snd kv) with
    | Some st, Some en =>
        if dt_ltb st en then dict_set key_eqb (fst kv) (snd kv) valid_semesters
        else valid_semesters
    | _, _ => valid_semesters
    end) semesters [].

(** [apply_semesters_to_config], threading [SEMESTER_DATABASE]: one
    [update_semester_info] per validated entry (each has both dates). *)
Definition apply_semesters_to_config (db : list ((Z * Z) * Semester))
    (semesters : list ((Z * Z) * SemDates)) : list ((Z * Z) * Semester) :=
  fold_left (fun db kv =>
    match sd_start (snd kv), sd_end (snd kv) with
    | Some st, Some en => update_semester_info db (fst (fst kv)) (snd (fst kv)) st en
    | _, _ => db
    end) (validate_semester_data semesters) db.

(** Both dates present, start before end. *)
Definition valid_dates (v : SemDates) : bool :=
  match sd_start v, sd_end v with
  | Some st, Some en => dt_ltb st en
  | _, _ => false
  end.

(** ** [NotionProcessor._generate_course_sessions]: smart-mode fields *)

(** The header spellings 學年 學期 學年學期 時間. *)
Definition k_year_tw : pystr := [23416; 24180].
Definition k_semester_tw : pystr := [23416; 26399].
Definition k_year_semester_tw : pystr := [23416; 24180; 23416; 26399].
Definition k_time_tw : pystr := [26178; 38291].

(** [row_data.get(k, default)]. *)
Definition get_or (row_data : row) (k : pystr) (default : pystr) : pystr :=
  match row_get row_data k with Some v => v | None => default end.

Definition nonempty (s : pystr) : bool := match s with [] => false | _ => true end.

(** ['-' in s]. *)
Definition has_dash (s : pystr) : bool := existsb (Z.eqb 45) s.

Definition year_field (row_data : row) : pystr :=
  get_or row_data (lit "Year") (get_or row_data (lit "year") (get_or row_data k_year_tw [])).
Definition sem_field (row_data : row) : pystr :=
  get_or row_data (lit "Semester") (get_or row_data (lit "semester") (get_or row_data k_semester_tw [])).
Definition schedule_field (row_data : row) : pystr :=
  get_or row_data (lit "Schedule") (get_or row_data (lit "schedule") (get_or row_data k_time_tw [])).

(** [year_str], [sem_str] and [schedule_str] of the smart mode, with the
    combined ["114-1"] form read from 學年學期 or from Semester. *)
Definition smart_fields (row_data : row) : pystr * pystr * pystr :=
  let year_str := year_field row_data in
  let sem_str := sem_field row_data in
  let combined_ys := get_or row_data k_year_semester_tw [] in
  let combined_ys :=
    if nonempty sem_str && has_dash sem_str && negb (nonempty year_str)
    then sem_str else combined_ys in
  let '(year_str, sem_str) :=
    if negb (nonempty year_str) && (negb (nonempty sem_str) || has_dash sem_str)
       && nonempty combined_ys && has_dash combined_ys
    then match split_on 45 combined_ys with
         | p0 :: p1 :: _ => (strip_ws p0, strip_ws p1)
         | _ => (year_str, sem_str)
         end
    else (year_str, sem_str) in
  (year_str, sem_str, schedule_field row_data).

(** The smart-mode blocks of one course row. *)
Definition smart_row_blocks (db : list ((Z * Z) * Semester)) (row_data : row)
    : exc (list TeachingBlock) :=
  let '(year_str, sem_str, schedule_str) := smart_fields row_data in
  smart_mode_strs db year_str sem_str schedule_str.

(** ** [NotionProcessor._build_properties_from_csv_row] *)

(** A Notion property value: title, select or rich text. *)
Inductive NotionProp : Type :=
| PTitle (content : pystr)
| PSelect (name : pystr)
| PRichText (content : pystr).

Definition prop_text (p : NotionProp) : pystr :=
  match p with PTitle c => c | PSelect n => n | PRichText c => c end.

Definition key_mapping : list (pystr * pystr) :=
  [(lit "name", lit "Course Name"); (lit "title", lit "Course Name");
   ([27161; 38988], lit "Course Name"); ([21517; 31281], lit "Course Name");
   (lit "code", lit "Course Code"); (lit "instructor", lit "Professor");
   (lit "teacher", lit "Professor"); (lit "location", lit "Class Location");
   (lit "remarks", lit "Remarks")].

Definition skip_keys : list pystr :=
  [lit "schedule"; lit "remarks"; lit "location"; [20633; 35387]; [22320; 40670]].

Definition day_map_zh : list (pystr * pystr) :=
  [([ch_mon], lit "Mon"); ([ch_tue], lit "Tue"); ([ch_wed], lit "Wed");
   ([ch_thu], lit "Thu"); ([ch_fri], lit "Fri"); ([ch_sat], lit "Sat");
   ([ch_sun], lit "Sun")].

Definition title_keys : list pystr :=
  [lit "course name"; lit "name"; lit "title"; [27161; 38988]].

Definition select_keys : list pystr :=
  [lit "semester"; lit "type"; lit "status"; lit "day"; lit "category";
   [23416; 26399]; [39006; 22411]; [29376; 24907]].

Definition in_keys (k : pystr) (ks : list pystr) : bool := existsb (pystr_eqb k) ks.

(** [str.lower] is a parameter: the statements hold for any lowering. *)
Section BuildProperties.
Variable py_lower : pystr -> pystr.

(** One iteration of [for key, value in row.items()]; [None] is a
    missing CSV cell. *)
Definition build_step (properties : list (pystr * NotionProp))
    (kv : pystr * option pystr) : list (pystr * NotionProp) :=
  match snd kv with
  | None => properties
  | Some value =>
      let clean_key := strip_ws (drop_while (Z.eqb 65279) (fst kv)) in
      let clean_value := strip_ws value in
      match clean_value with
      | [] => properties
      | day_char :: _ =>
          if in_keys (py_lower clean_key) skip_keys then
            if pystr_eqb (py_lower clean_key) (lit "schedule") then
              match dict_get pystr_eqb [day_char] day_map_zh with
              | Some mapped_day =>
                  dict_set pystr_eqb (lit "Day") (PSelect mapped_day) properties
              | None => properties
              end
            else properties
          else
            let mapped_key :=
              match dict_get pystr_eqb (py_lower clean_key) key_mapping with
              | Some m => m
              | None => clean_key
              end in
            let key_lower := py_lower mapped_key in
            if in_keys key_lower title_keys then
              dict_set pystr_eqb mapped_key (PTitle clean_value) properties
            else if in_keys key_lower select_keys then
              dict_set pystr_eqb mapped_key (PSelect clean_value) properties
            else dict_set pystr_eqb mapped_key (PRichText clean_value) properties
      end
  end.

Definition build_properties_from_csv_row (r : list (pystr * option pystr))
    : list (pystr * NotionProp) :=
  fold_left build_step r [].

End BuildProperties.

(** Lowering of ASCII capitals. *)
Definition ascii_lower (s : pystr) : pystr :=
  map (fun c => if (65 <=? c) && (c <=? 90) then c + 32 else c) s.


(** * Lemmas *)

Ltac zcases :=
  repeat match goal with
  | |- context [Z.ltb ?a ?b] => destruct (Z.ltb_spec a b)
  | |- context [Z.eqb ?a ?b] => destruct (Z.eqb_spec a b)
  | |- context [Z.leb ?a ?b] => destruct (Z.leb_spec a b)
  | H : context [Z.ltb ?a ?b] |- _ => destruct (Z.ltb_spec a b)
  | H : context [Z.eqb ?a ?b] |- _ => destruct (Z.eqb_spec a b)
  | H : context [Z.leb ?a ?b] |- _ => destruct (Z.leb_spec a b)
  end; simpl in *; try lia; try congruence.

(** ** Stable insertion sort *)

Section SortFacts.
Context {A : Type} (lt : A -> A -> bool).
Hypothesis lt_asym : forall a b, lt a b = true -> lt b a = false.

Lemma insert_stable_perm : forall x l, Permutation (insert_stable lt x l) (x :: l).
Proof.
  intros x l; induction l as [|y ys IH]; simpl; [auto|].
  destruct (lt x y); [auto|].
  eapply perm_trans; [apply perm_skip, IH|apply perm_swap].
Qed.

Lemma fold_insert_perm : forall l acc,
  Permutation (fold_left (fun acc x => insert_stable lt x acc) l acc) (l ++ acc).
Proof.
  induction l as [|x l IH]; intros acc; simpl; [auto|].
  eapply perm_trans; [apply IH|].
  eapply perm_trans; [apply Permutation_app_head, insert_stable_perm|].
  apply Permutation_sym, Permutation_middle.
Qed.

Lemma sort_stable_perm : forall l, Permutation (sort_stable lt l) l.
Proof.
  intros l; unfold sort_stable.
  eapply perm_trans; [apply fold_insert_perm|]. rewrite app_nil_r; auto.
Qed.

Definition not_after (a b : A) : Prop := lt b a = false.

Lemma insert_stable_sorted : forall x l,
  Sorted not_after l -> Sorted not_after (insert_stable lt x l).
Proof.
  intros x l; induction l as [|y ys IH]; intros Hs; simpl.
  - repeat constructor.
  - destruct (lt x y) eqn:Hxy.
    + constructor; [exact Hs|]. constructor. unfold not_after. now apply lt_asym.
    + apply Sorted_inv in Hs as [Hys Hhd].
      constructor; [now apply IH|].
      destruct ys as [|z zs]; simpl.
      * constructor. exact Hxy.
      * destruct (lt x z); constructor; [exact Hxy|].
        now inversion Hhd.
Qed.

Lemma sort_stable_sorted : forall l, Sorted not_after (sort_stable lt l).
Proof.
  intros l; unfold sort_stable.
  assert (H : forall acc, Sorted not_after acc ->
    Sorted not_after (fold_left (fun acc x => insert_stable lt x acc) l acc)).
  { induction l as [|x l IH]; intros acc Hacc; simpl; [exact Hacc|].
    apply IH, insert_stable_sorted, Hacc. }
  apply H; constructor.
Qed.
End SortFacts.


(** ** Order on dates and on occurrences *)

Lemma dt_eqb_eq : forall a b, dt_eqb a b = true <-> a = b.
Proof.
  intros [ao at0] [bo bt]; unfold dt_eqb; simpl; split.
  - intros H; apply andb_prop in H as [H1 H2].
    apply Z.eqb_eq in H1, H2; subst; reflexivity.
  - intros H; injection H; intros; subst; now rewrite !Z.eqb_refl.
Qed.

Lemma dt_eqb_refl : forall a, dt_eqb a a = true.
Proof. intros a; now apply dt_eqb_eq. Qed.

Lemma dt_ltb_irrefl : forall a, dt_ltb a a = false.
Proof. intros [ao at0]; unfold dt_ltb; simpl; zcases. Qed.

Lemma dt_lt_le_trans : forall a b c,
  dt_ltb a b = true -> dt_leb b c = true -> dt_ltb a c = true.
Proof.
  intros [ao at0] [bo bt] [co ct]; unfold dt_leb, dt_ltb, dt_eqb; simpl; zcases.
Qed.

Lemma dt_le_trans : forall a b c,
  dt_leb a b = true -> dt_leb b c = true -> dt_leb a c = true.
Proof.
  intros [ao at0] [bo bt] [co ct]; unfold dt_leb, dt_ltb, dt_eqb; simpl; zcases.
Qed.

Lemma dt_le_neq_lt : forall a b,
  dt_leb a b = true -> a <> b -> dt_ltb a b = true.
Proof.
  intros a b H Hne; unfold dt_leb in H.
  destruct (dt_ltb a b); [reflexivity|].
  simpl in H; apply dt_eqb_eq in H; contradiction.
Qed.

Lemma dt_leb_ord : forall a b, dt_leb a b = true -> dt_ord a <= dt_ord b.
Proof. intros [ao at0] [bo bt]; unfold dt_leb, dt_ltb, dt_eqb; simpl; zcases. Qed.

Lemma dt_ltb_neq : forall a b, dt_ltb a b = true -> dt_eqb b a = false.
Proof. intros [ao at0] [bo bt]; unfold dt_ltb, dt_eqb; simpl; zcases. Qed.

Lemma occ_key_lt_asym : forall a b,
  occ_key_lt a b = true -> occ_key_lt b a = false.
Proof.
  intros [[ao at0] aw ast aet asp aep] [[bo bt] bw bst bet bsp bep].
  unfold occ_key_lt, dt_ltb, dt_eqb; simpl; zcases.
Qed.

Lemma not_after_occ_trans : forall a b c,
  not_after occ_key_lt a b -> not_after occ_key_lt b c -> not_after occ_key_lt a c.
Proof.
  intros [[ao at0] aw ast aet asp aep] [[bo bt] bw bst bet bsp bep]
         [[co ct] cw cst cet csp cep].
  unfold not_after, occ_key_lt, dt_ltb, dt_eqb; simpl; zcases.
Qed.

Lemma not_after_occ_date : forall a b,
  not_after occ_key_lt a b -> dt_leb (oc_date a) (oc_date b) = true.
Proof.
  intros [[ao at0] aw ast aet asp aep] [[bo bt] bw bst bet bsp bep].
  unfold not_after, occ_key_lt, dt_leb, dt_ltb, dt_eqb; simpl; zcases.
Qed.

Lemma not_after_occ_start : forall a b,
  not_after occ_key_lt a b -> oc_date a = oc_date b ->
  oc_start_time a <= oc_start_time b.
Proof.
  intros [[ao at0] aw ast aet asp aep] [[bo bt] bw bst bet bsp bep].
  unfold not_after, occ_key_lt, dt_ltb, dt_eqb; simpl; intros H E.
  injection E; intros; subst; zcases.
Qed.

Lemma sort_occ_sorted : forall l,
  StronglySorted (not_after occ_key_lt) (sort_stable occ_key_lt l).
Proof.
  intros l; apply Sorted_StronglySorted.
  - intros a b c; apply not_after_occ_trans.
  - apply sort_stable_sorted, occ_key_lt_asym.
Qed.

(** ** Grouping by date *)

Lemma groupby_nil : forall l, groupby_date l = [] -> l = [].
Proof.
  intros [|x xs]; simpl; [auto|].
  destruct (groupby_date xs) as [|[k g] rest]; [discriminate|].
  destruct (dt_eqb (oc_date x) k); discriminate.
Qed.

Lemma groupby_head : forall y ys k g r,
  groupby_date (y :: ys) = (k, g) :: r ->
  k = oc_date y /\ exists g', g = y :: g'.
Proof.
  intros y ys k g r; simpl.
  destruct (groupby_date ys) as [|[k' g'] rest].
  - intros H; injection H; intros; subst; split; [reflexivity|eexists; reflexivity].
  - destruct (dt_eqb (oc_date y) k'); intros H; injection H; intros; subst;
      split; try reflexivity; eexists; reflexivity.
Qed.

Lemma groupby_member : forall l k g, In (k, g) (groupby_date l) ->
  exists x g', g = x :: g' /\ oc_date x = k /\ In x l.
Proof.
  induction l as [|x xs IH]; simpl; [tauto|].
  intros k g Hin.
  destruct (groupby_date xs) as [|[k' g'] rest] eqn:G.
  - destruct Hin as [H|[]]; injection H; intros; subst.
    exists x, []; auto.
  - assert (Hin' : (k, g) = (oc_date x, [x]) \/ (k, g) = (oc_date x, x :: g') \/
                   In (k, g) ((k', g') :: rest)).
    { destruct (dt_eqb (oc_date x) k'); destruct Hin as [H|H]; auto.
      right; right; now right. }
    destruct Hin' as [H|[H|H]].
    + injection H; intros; subst; exists x, []; auto.
    + injection H; intros; subst; exists x, g'; auto.
    + destruct (IH k g H) as (y & g'' & Hg & Hy & Hiny).
      exists y, g''; auto.
Qed.

(** Later groups of a sorted list have strictly later dates. *)
Lemma groupby_rest_later : forall s k0 g0 rest,
  StronglySorted (not_after occ_key_lt) s ->
  groupby_date s = (k0, g0) :: rest ->
  forall k g, In (k, g) rest -> dt_ltb k0 k = true.
Proof.
  induction s as [|x xs IH]; intros k0 g0 rest Hs G; [discriminate|].
  apply StronglySorted_inv in Hs as [Hxs Hall].
  simpl in G.
  destruct (groupby_date xs) as [|[k' g'] rest'] eqn:Gx.
  - injection G; intros; subst; contradiction.
  - destruct xs as [|y ys]; [discriminate|].
    destruct (groupby_head y ys k' g' rest' Gx) as [Hk' _].
    assert (Hxy : dt_leb (oc_date x) (oc_date y) = true)
      by (apply not_after_occ_date; now inversion Hall).
    destruct (dt_eqb (oc_date x) k') eqn:E.
    + injection G as E1 E2 E3; subst k0 g0 rest. apply dt_eqb_eq in E.
      intros k g H. rewrite E. exact (IH _ _ _ Hxs eq_refl _ _ H).
    + injection G as E1 E2 E3; subst k0 g0 rest. intros k g H.
      assert (Hlt : dt_ltb (oc_date x) (oc_date y) = true).
      { apply dt_le_neq_lt; [exact Hxy|]. intros Heq.
        rewrite Heq, <- Hk', dt_eqb_refl in E. discriminate. }
      destruct H as [H|H].
      * injection H as <- <-. rewrite Hk'. exact Hlt.
      * pose proof (IH _ _ _ Hxs eq_refl _ _ H) as Hk. rewrite Hk' in Hk.
        eapply dt_lt_le_trans; [exact Hlt|].
        unfold dt_leb; rewrite Hk; reflexivity.
Qed.

Lemma dt_ltb_neq' : forall a b, dt_ltb a b = true -> dt_eqb a b = false.
Proof. intros [ao at0] [bo bt]; unfold dt_ltb, dt_eqb; simpl; zcases. Qed.

Lemma dt_lt_le : forall a b, dt_ltb a b = true -> dt_leb a b = true.
Proof. intros a b H; unfold dt_leb; rewrite H; reflexivity. Qed.

Lemma filter_none {A : Type} : forall (f : A -> bool) l,
  Forall (fun x => f x = false) l -> List.filter f l = [].
Proof. intros f l H; induction H; simpl; [reflexivity|]. now rewrite H. Qed.

(** In a sorted list, a group of [groupby] is exactly the elements of
    its date. *)
Lemma groupby_filter : forall s, StronglySorted (not_after occ_key_lt) s ->
  forall k g, In (k, g) (groupby_date s) ->
  List.filter (fun o => dt_eqb (oc_date o) k) s = g.
Proof.
  induction s as [|x xs IH]; intros Hs k g Hin; [contradiction|].
  apply StronglySorted_inv in Hs as [Hxs Hall].
  simpl in Hin.
  destruct (groupby_date xs) as [|[k' g'] rest] eqn:G.
  - apply groupby_nil in G; subst xs.
    destruct Hin as [H|[]]; injection H as <- <-; simpl.
    rewrite dt_eqb_refl; reflexivity.
  - destruct xs as [|y ys]; [discriminate|].
    destruct (groupby_head y ys k' g' rest G) as [Hk' _].
    assert (Hxy : dt_leb (oc_date x) (oc_date y) = true)
      by (apply not_after_occ_date; now inversion Hall).
    assert (Hge : forall z, In z (y :: ys) -> dt_leb (oc_date y) (oc_date z) = true).
    { intros z [<-|Hz].
      - unfold dt_leb; rewrite dt_eqb_refl, orb_true_r; reflexivity.
      - apply StronglySorted_inv in Hxs as [_ Hy].
        apply not_after_occ_date; eapply Forall_forall; eauto. }
    destruct (dt_eqb (oc_date x) k') eqn:E.
    + apply dt_eqb_eq in E. destruct Hin as [H|H].
      * injection H as <- <-; simpl. rewrite dt_eqb_refl. f_equal.
        rewrite E. apply IH; [exact Hxs|]. left; reflexivity.
      * pose proof (groupby_rest_later _ _ _ _ Hxs G k g H) as Hlt.
        simpl. rewrite E, (dt_ltb_neq' _ _ Hlt).
        apply IH; [exact Hxs|]. right; exact H.
    + assert (Hlt : dt_ltb (oc_date x) (oc_date y) = true).
      { apply dt_le_neq_lt; [exact Hxy|]. intros Heq.
        rewrite Heq, <- Hk', dt_eqb_refl in E. discriminate. }
      destruct Hin as [H|H].
      * injection H as <- <-; simpl. rewrite dt_eqb_refl. f_equal.
        change (List.filter (fun o => dt_eqb (oc_date o) (oc_date x)) (y :: ys) = []).
        apply filter_none, Forall_forall. intros z Hz.
        apply dt_ltb_neq. eapply dt_lt_le_trans; [exact Hlt|]. apply Hge, Hz.
      * assert (Hxk : dt_ltb (oc_date x) k = true).
        { destruct H as [H|H].
          - injection H as <- <-. rewrite Hk'; exact Hlt.
          - pose proof (groupby_rest_later _ _ _ _ Hxs G k g H) as Hk.
            rewrite Hk' in Hk. eapply dt_lt_le_trans; [exact Hlt|].
            apply dt_lt_le, Hk. }
        simpl. rewrite (dt_ltb_neq' _ _ Hxk).
        apply IH; [exact Hxs|]. exact H.
Qed.

(** ** Emitted blocks *)

Lemma emit_blocks_member : forall anchor G b, In b (emit_blocks anchor G) ->
  exists k o g, In (k, o :: g) G /\ b = block_of anchor k o g /\
                week_of anchor k <= 18.
Proof.
  intros anchor G; induction G as [|[k [|o g]] rest IH]; simpl; intros b Hb;
    [contradiction| |].
  - destruct (IH b Hb) as (k' & o' & g' & H1 & H2 & H3); eauto 10.
  - destruct (18 <? week_of anchor k) eqn:W.
    + destruct (IH b Hb) as (k' & o' & g' & H1 & H2 & H3); eauto 10.
    + destruct Hb as [<-|Hb].
      * exists k, o, g; split; [now left|]. split; [reflexivity|]. zcases.
      * destruct (IH b Hb) as (k' & o' & g' & H1 & H2 & H3); eauto 10.
Qed.

Lemma emit_blocks_filter : forall anchor G,
  emit_blocks anchor G = List.filter (fun b => tb_week b <=? 18) (index_groups anchor G).
Proof.
  intros anchor G; induction G as [|[k [|o g]] rest IH]; simpl; [reflexivity|exact IH|].
  destruct (18 <? week_of anchor k) eqn:W; zcases; rewrite IH; reflexivity.
Qed.

Lemma StronglySorted_filter {A : Type} (R : A -> A -> Prop) (f : A -> bool) :
  forall l, StronglySorted R l -> StronglySorted R (List.filter f l).
Proof.
  intros l H; induction H as [|x l Hl IH Hall]; simpl; [constructor|].
  destruct (f x); [|exact IH].
  constructor; [exact IH|].
  apply Forall_forall; intros y Hy. apply filter_In in Hy as [Hy _].
  eapply Forall_forall in Hall; eauto.
Qed.

(** The first group of a non-empty sorted list is led by its head. *)
Lemma merge_first_block : forall l o t,
  sort_stable occ_key_lt l = o :: t ->
  exists g rest, groupby_date (o :: t) = (oc_date o, o :: g) :: rest /\
    merge_class_dates l = block_of (oc_date o) (oc_date o) o g
                          :: emit_blocks (oc_date o) rest.
Proof.
  intros l o t Hs.
  destruct (groupby_date (o :: t)) as [|[k g0] rest] eqn:G.
  - apply groupby_nil in G; discriminate.
  - destruct (groupby_head o t k g0 rest G) as [-> [g ->]].
    exists g, rest; split; [reflexivity|].
    unfold merge_class_dates; rewrite Hs, G; simpl.
    unfold week_of; rewrite Z.sub_diag; simpl. unfold block_of, week_of.
    rewrite Z.sub_diag; reflexivity.
Qed.

Lemma sorted_head_earliest : forall l o t,
  sort_stable occ_key_lt l = o :: t ->
  forall x, In x l -> dt_leb (oc_date o) (oc_date x) = true.
Proof.
  intros l o t Hs x Hx.
  assert (Hx' : In x (o :: t))
    by (rewrite <- Hs; eapply Permutation_in; [symmetry; apply sort_stable_perm|exact Hx]).
  destruct Hx' as [<-|Hx'].
  - unfold dt_leb; rewrite dt_eqb_refl, orb_true_r; reflexivity.
  - pose proof (sort_occ_sorted l) as SS; rewrite Hs in SS.
    apply StronglySorted_inv in SS as [_ Hall].
    apply not_after_occ_date; eapply Forall_forall; eauto.
Qed.

(** * Claims *)

(** ** Session merger and week indexer *)

(** C2: after sorting by (date, start_time) and grouping by date, every
    merged block's week index is [floor((date - anchor).days / 7) + 1],
    where the anchor is the date of the first block, the earliest class
    date (week 1); the first block comes from the occurrences and not
    from the semester's registered start: for semester (114, 1) the
    Wednesday course 三9,三10,三11 is anchored on 2025-09-03, not on
    2025-09-01. *)
Theorem merge_week_index_anchor :
  (forall l,
    match merge_class_dates l with
    | [] => l = []
    | b0 :: _ =>
        tb_week b0 = 1 /\
        (exists o, In o l /\ oc_date o = tb_date b0) /\
        (forall o, In o l -> dt_leb (tb_date b0) (oc_date o) = true) /\
        (forall b, In b (merge_class_dates l) ->
           tb_week b = (dt_ord (tb_date b) - dt_ord (tb_date b0)) / 7 + 1)
    end) /\
  (exists b0 rest,
     smart_mode SEMESTER_DATABASE 114 1 wed_9_11 = Ok (b0 :: rest) /\
     tb_date b0 = mk_dt 2025 9 3 /\ tb_date b0 <> mk_dt 2025 9 1).
Proof.
  split.
  - intros l.
    destruct (sort_stable occ_key_lt l) as [|o t] eqn:Hs.
    + unfold merge_class_dates; rewrite Hs.
      apply Permutation_nil. rewrite <- Hs. apply sort_stable_perm.
    + destruct (merge_first_block l o t Hs) as (g & rest & G & ->).
      split; [unfold block_of, week_of; simpl; rewrite Z.sub_diag; reflexivity|].
      split; [|split].
      * exists o; split; [|reflexivity].
        eapply Permutation_in; [apply sort_stable_perm|]. rewrite Hs; now left.
      * intros x Hx; exact (sorted_head_earliest l o t Hs x Hx).
      * intros b [<-|Hb].
        -- unfold block_of, week_of; simpl; rewrite Z.sub_diag; reflexivity.
        -- destruct (emit_blocks_member _ _ _ Hb) as (k & o' & g' & _ & -> & _).
           reflexivity.
  - remember (smart_mode SEMESTER_DATABASE 114 1 wed_9_11) as r eqn:Hr.
    vm_compute in Hr; subst r.
    eexists _, _; split; [reflexivity|]. split; [reflexivity|].
    vm_compute; intros H; discriminate H.
Qed.

(** C3: every emitted block has [1 <= week_index <= 18]; the blocks are
    the computed ones with those past week 18 dropped, keeping their
    computed indices (no renumbering). *)
Theorem merge_week_bounds_no_renumber : forall l,
  (forall b, In b (merge_class_dates l) -> 1 <= tb_week b <= 18) /\
  merge_class_dates l =
    List.filter (fun b => tb_week b <=? 18) (merge_unfiltered l).
Proof.
  intros l; split.
  - intros b Hb. unfold merge_class_dates in Hb.
    destruct (sort_stable occ_key_lt l) as [|o t] eqn:Hs; [contradiction|].
    destruct (emit_blocks_member _ _ _ Hb) as (k & o' & g & Hin & -> & W).
    destruct (groupby_member _ _ _ Hin) as (x & g'' & Hg & Hxk & Hx).
    assert (Hle : dt_leb (oc_date o) (oc_date x) = true).
    { destruct Hx as [<-|Hx].
      - unfold dt_leb; rewrite dt_eqb_refl, orb_true_r; reflexivity.
      - pose proof (sort_occ_sorted l) as SS; rewrite Hs in SS.
        apply StronglySorted_inv in SS as [_ Hall].
        apply not_after_occ_date; eapply Forall_forall; eauto. }
    apply dt_leb_ord in Hle. subst k. simpl. split; [|exact W].
    unfold week_of.
    assert (0 <= (dt_ord (oc_date x) - dt_ord (oc_date o)) / 7)
      by (apply Z.div_pos; lia).
    lia.
  - unfold merge_class_dates, merge_unfiltered.
    destruct (sort_stable occ_key_lt l) as [|o t]; [reflexivity|].
    apply emit_blocks_filter.
Qed.

Lemma last_in {A : Type} : forall (l : list A) d, l <> [] -> In (last l d) l.
Proof.
  induction l as [|x [|y ys] IH]; intros d H; [congruence|now left|].
  right. apply IH. discriminate.
Qed.

Lemma StronglySorted_last {A : Type} (R : A -> A -> Prop) : forall l d x,
  StronglySorted R l -> In x l -> x = last l d \/ R x (last l d).
Proof.
  induction l as [|y ys IH]; intros d x Hs Hx; [contradiction|].
  apply StronglySorted_inv in Hs as [Hys Hall].
  destruct ys as [|z zs].
  - destruct Hx as [<-|[]]; now left.
  - change (last (y :: z :: zs) d) with (last (z :: zs) d).
    destruct Hx as [<-|Hx].
    + right. assert (Hin : In (last (z :: zs) d) (z :: zs))
        by (apply last_in; discriminate).
      eapply Forall_forall; eauto.
    + now apply IH.
Qed.

(** C6 (counterexample): on 2025-09-03 the course 三3/三4/三5/三6,三4 of
    semester (114, 1) has a 08:10-12:10 and a 09:10-10:00 occurrence;
    the merged block ends at 10:00, before the latest end. *)
Lemma merge_end_not_latest :
  (exists occs,
     exc_bind (parse_schedule nested_wed)
       (fun ss => get_class_dates SEMESTER_DATABASE ss 114 1 []) = Ok (nested_day ++ occs)) /\
  ~ (forall l b, In b (merge_class_dates l) ->
       forall o, In o l -> oc_date o = tb_date b -> oc_end_time o <= tb_end_time b).
Proof.
  split.
  - remember (exc_bind (parse_schedule nested_wed)
       (fun ss => get_class_dates SEMESTER_DATABASE ss 114 1 [])) as r eqn:Hr.
    vm_compute in Hr; subst r. eexists; reflexivity.
  - intros H.
    assert (Hb : In nested_day_block (merge_class_dates nested_day))
      by (vm_compute; left; reflexivity).
    assert (Ho : In nested_long nested_day) by (left; reflexivity).
    specialize (H nested_day nested_day_block Hb _ Ho eq_refl).
    vm_compute in H. apply H; reflexivity.
Qed.

(** C6 (amended): a merged block starts at the earliest start time of
    its date's occurrences and ends at the end time of the occurrence
    that comes last in (date, start_time) order, the one with the latest
    start time (the later one in input order on ties). *)
Theorem merge_block_span : forall l b, In b (merge_class_dates l) ->
  exists o g,
    List.filter (fun x => dt_eqb (oc_date x) (tb_date b))
      (sort_stable occ_key_lt l) = o :: g /\
    tb_start_time b = oc_start_time o /\
    tb_end_time b = oc_end_time (last (o :: g) o) /\
    (forall x, In x l -> oc_date x = tb_date b -> tb_start_time b <= oc_start_time x) /\
    (forall x, In x (o :: g) -> oc_start_time x <= oc_start_time (last (o :: g) o)).
Proof.
  intros l b Hb. unfold merge_class_dates in Hb.
  pose proof (sort_occ_sorted l) as SS.
  destruct (sort_stable occ_key_lt l) as [|o0 t] eqn:Hs; [contradiction|].
  destruct (emit_blocks_member _ _ _ Hb) as (k & o & g & Hin & -> & _).
  pose proof (groupby_filter _ SS _ _ Hin) as HF.
  assert (HSg : StronglySorted (not_after occ_key_lt) (o :: g))
    by (rewrite <- HF; apply StronglySorted_filter, SS).
  assert (Hdate : forall x, In x (o :: g) -> oc_date x = k).
  { intros x Hx. rewrite <- HF in Hx. apply filter_In in Hx as [_ Hx].
    now apply dt_eqb_eq in Hx. }
  exists o, g; split; [exact HF|]. split; [reflexivity|]. split; [reflexivity|].
  unfold block_of; cbn [tb_start_time tb_end_time tb_date].
  split.
  - intros x Hx Hxk.
    assert (Hx' : In x (o :: g)).
    { rewrite <- HF. apply filter_In; split.
      - rewrite <- Hs. eapply Permutation_in; [symmetry; apply sort_stable_perm|exact Hx].
      - rewrite Hxk; apply dt_eqb_refl. }
    destruct Hx' as [<-|Hx']; [lia|].
    apply StronglySorted_inv in HSg as [_ Hall].
    apply not_after_occ_start; [eapply Forall_forall; eauto|].
    rewrite (Hdate o (or_introl eq_refl)); symmetry; apply Hdate; now right.
  - intros x Hx.
    destruct (StronglySorted_last _ (o :: g) o x HSg Hx) as [<-|H]; [lia|].
    apply not_after_occ_start; [exact H|].
    rewrite (Hdate x Hx); symmetry; apply Hdate, last_in; discriminate.
Qed.

Lemma merge_block_span_witness :
  In nested_day_block (merge_class_dates nested_day) /\
  exists o g,
    List.filter (fun x => dt_eqb (oc_date x) (tb_date nested_day_block))
      (sort_stable occ_key_lt nested_day) = o :: g /\
    tb_start_time nested_day_block = oc_start_time o /\
    tb_end_time nested_day_block = oc_end_time (last (o :: g) o) /\
    (forall x, In x nested_day -> oc_date x = tb_date nested_day_block ->
       tb_start_time nested_day_block <= oc_start_time x) /\
    (forall x, In x (o :: g) -> oc_start_time x <= oc_start_time (last (o :: g) o)).
Proof.
  assert (Hb : In nested_day_block (merge_class_dates nested_day))
    by (vm_compute; left; reflexivity).
  split; [exact Hb|]. exact (merge_block_span nested_day nested_day_block Hb).
Defined.

(** ** Date expander *)

Lemma add_days_ok : forall d n d', add_days d n = Ok d' ->
  dt_ord d' = dt_ord d + n /\ dt_tod d' = dt_tod d.
Proof.
  intros d n d'; unfold add_days.
  destruct ((dt_ord d + n <? 1) || (MAXORDINAL <? dt_ord d + n)); intros H;
    [discriminate|injection H as <-; simpl; auto].
Qed.

Lemma day_occurrences_spec : forall cur E ss o,
  In o (day_occurrences cur E ss) ->
  oc_date o = cur /\ existsb (dt_eqb cur) E = false /\
  exists s, In s ss /\ dt_weekday cur = weekday s /\ oc_weekday o = weekday s.
Proof.
  intros cur E ss o; induction ss as [|s ss IH]; simpl; [tauto|].
  destruct (dt_weekday cur =? weekday s) eqn:W;
    [destruct (existsb (dt_eqb cur) E) eqn:X|]; simpl; intros H.
  - destruct (IH H) as (H1 & H2 & s' & H3 & H4); eauto 8.
  - destruct H as [<-|H].
    + simpl; apply Z.eqb_eq in W; eauto 8.
    + destruct (IH H) as (H1 & H2 & s' & H3 & H4); eauto 8.
  - destruct (IH H) as (H1 & H2 & s' & H3 & H4); eauto 8.
Qed.

Lemma date_loop_window : forall fuel st en cur ss E occs,
  dt_leb st cur = true -> date_loop fuel en cur ss E = Ok occs ->
  forall o, In o occs ->
    dt_leb st (oc_date o) = true /\ dt_leb (oc_date o) en = true /\
    exists s, In s ss /\ dt_weekday (oc_date o) = weekday s /\ oc_weekday o = weekday s.
Proof.
  induction fuel as [|f IH]; intros st en cur ss E occs Hst H o Ho; simpl in H.
  - injection H as <-; contradiction.
  - destruct (dt_leb cur en) eqn:Hce; [|injection H as <-; contradiction].
    destruct (add_days cur 1) as [next|e] eqn:Hn; [|discriminate]. simpl in H.
    destruct (date_loop f en next ss E) as [rest|e] eqn:Hr; [|discriminate].
    injection H as <-. apply in_app_or in Ho as [Ho|Ho].
    + destruct (day_occurrences_spec _ _ _ _ Ho) as (-> & _ & s & Hs & W & W').
      split; [exact Hst|]. split; [exact Hce|]. eauto.
    + eapply IH; [|exact Hr|exact Ho].
      apply add_days_ok in Hn as [Ho1 Ht1].
      destruct st as [so st0], cur as [co ct], next as [no nt]; simpl in *.
      revert Hst; unfold dt_leb, dt_ltb, dt_eqb; simpl; subst; zcases.
Qed.

(** C4: for every registered semester, every occurrence returned by
    [get_class_dates] is dated within [start_date, end_date] on the
    weekday of one of the sessions. *)
Theorem class_dates_within_semester : forall db sessions y s E sem occs,
  get_semester_info db y s = Some sem ->
  get_class_dates db sessions y s E = Ok occs ->
  forall o, In o occs ->
    dt_leb (start_date sem) (oc_date o) = true /\
    dt_leb (oc_date o) (end_date sem) = true /\
    exists ses, In ses sessions /\ dt_weekday (oc_date o) = weekday ses /\
                oc_weekday o = weekday ses.
Proof.
  intros db sessions y s E sem occs Hsem H o Ho.
  unfold get_class_dates in H; rewrite Hsem in H.
  eapply date_loop_window; [|exact H|exact Ho].
  unfold dt_leb; rewrite dt_eqb_refl, orb_true_r; reflexivity.
Qed.

Lemma class_dates_within_semester_witness :
  exists occs,
    get_semester_info SEMESTER_DATABASE 114 1 = Some sem_114_1 /\
    get_class_dates SEMESTER_DATABASE [wed_session] 114 1 [] = Ok occs /\
    forall o, In o occs ->
      dt_leb (start_date sem_114_1) (oc_date o) = true /\
      dt_leb (oc_date o) (end_date sem_114_1) = true /\
      exists ses, In ses [wed_session] /\ dt_weekday (oc_date o) = weekday ses /\
                  oc_weekday o = weekday ses.
Proof.
  destruct (get_class_dates SEMESTER_DATABASE [wed_session] 114 1 []) as [occs|e] eqn:H.
  - assert (Hsem : get_semester_info SEMESTER_DATABASE 114 1 = Some sem_114_1)
      by reflexivity.
    exists occs; split; [exact Hsem|]; split; [reflexivity|].
    exact (class_dates_within_semester _ _ _ _ _ _ _ Hsem H).
  - vm_compute in H; discriminate H.
Defined.

Lemma day_occurrences_exclude : forall cur E ss,
  day_occurrences cur E ss = List.filter (not_excluded E) (day_occurrences cur [] ss).
Proof.
  intros cur E ss; unfold not_excluded; induction ss as [|s ss IH]; simpl;
    [reflexivity|].
  destruct (dt_weekday cur =? weekday s); [|exact IH].
  simpl. destruct (existsb (dt_eqb cur) E); simpl; rewrite IH; reflexivity.
Qed.

Lemma date_loop_exclude : forall fuel en cur ss E,
  date_loop fuel en cur ss E =
  exc_map (List.filter (not_excluded E)) (date_loop fuel en cur ss []).
Proof.
  induction fuel as [|f IH]; intros en cur ss E; simpl; [reflexivity|].
  destruct (dt_leb cur en); [|reflexivity].
  destruct (add_days cur 1) as [next|e]; simpl; [|reflexivity].
  rewrite IH. destruct (date_loop f en next ss []) as [rest|e]; simpl; [|reflexivity].
  rewrite filter_app, <- day_occurrences_exclude; reflexivity.
Qed.

Lemma date_loop_tod : forall fuel st en cur ss E occs,
  dt_tod cur = dt_tod st -> dt_ord st <= dt_ord cur ->
  date_loop fuel en cur ss E = Ok occs ->
  forall o, In o occs ->
    dt_tod (oc_date o) = dt_tod st /\ dt_ord st <= dt_ord (oc_date o).
Proof.
  induction fuel as [|f IH]; intros st en cur ss E occs Ht Ho0 H o Ho; simpl in H.
  - injection H as <-; contradiction.
  - destruct (dt_leb cur en); [|injection H as <-; contradiction].
    destruct (add_days cur 1) as [next|e] eqn:Hn; [|discriminate]. simpl in H.
    destruct (date_loop f en next ss E) as [rest|e] eqn:Hr; [|discriminate].
    injection H as <-. apply in_app_or in Ho as [Ho|Ho].
    + destruct (day_occurrences_spec _ _ _ _ Ho) as (-> & _). auto.
    + apply add_days_ok in Hn as [Hn1 Hn2].
      eapply IH; [| |exact Hr|exact Ho]; lia.
Qed.

(** C10: exclusion in [get_class_dates] is exact [datetime] equality:
    the result is the unexcluded result without the occurrences whose
    date equals an entry of [exclude_dates] (so on such a day no session
    yields an occurrence); the iterated days are [start_date] plus whole
    days, with [start_date]'s time of day; hence an entry with another
    time of day excludes nothing. *)
Theorem exclusion_exact_match : forall db sessions y s E,
  get_class_dates db sessions y s E =
    exc_map (List.filter (fun o => negb (existsb (dt_eqb (oc_date o)) E)))
            (get_class_dates db sessions y s []) /\
  (forall occs, get_class_dates db sessions y s E = Ok occs ->
     forall o e, In o occs -> In e E -> oc_date o <> e) /\
  (forall sem occs, get_semester_info db y s = Some sem ->
     get_class_dates db sessions y s [] = Ok occs ->
     forall o, In o occs ->
       dt_tod (oc_date o) = dt_tod (start_date sem) /\
       dt_ord (start_date sem) <= dt_ord (oc_date o)) /\
  (forall sem, get_semester_info db y s = Some sem ->
     get_class_dates db sessions y s E =
     get_class_dates db sessions y s
       (List.filter (fun e => dt_tod e =? dt_tod (start_date sem)) E)).
Proof.
  intros db sessions y s E.
  assert (Hex : forall E', get_class_dates db sessions y s E' =
            exc_map (List.filter (not_excluded E')) (get_class_dates db sessions y s [])).
  { intros E'; unfold get_class_dates.
    destruct (get_semester_info db y s); [apply date_loop_exclude|reflexivity]. }
  assert (Htod : forall sem occs, get_semester_info db y s = Some sem ->
     get_class_dates db sessions y s [] = Ok occs ->
     forall o, In o occs ->
       dt_tod (oc_date o) = dt_tod (start_date sem) /\
       dt_ord (start_date sem) <= dt_ord (oc_date o)).
  { intros sem occs Hsem H o Ho. unfold get_class_dates in H; rewrite Hsem in H.
    eapply date_loop_tod; [reflexivity|lia|exact H|exact Ho]. }
  split; [exact (Hex E)|]. split; [|split; [exact Htod|]].
  - intros occs H o e Ho He Heq. rewrite (Hex E) in H.
    destruct (get_class_dates db sessions y s []) as [base|err]; [|discriminate].
    injection H as <-. apply filter_In in Ho as [_ Ho].
    unfold not_excluded in Ho. apply negb_true_iff in Ho.
    assert (existsb (dt_eqb (oc_date o)) E = true)
      by (apply existsb_exists; exists e; split; [exact He|apply dt_eqb_eq, Heq]).
    congruence.
  - intros sem Hsem.
    rewrite (Hex E), (Hex (List.filter (fun e => dt_tod e =? dt_tod (start_date sem)) E)).
    destruct (get_class_dates db sessions y s []) as [base|err] eqn:Hb; [|reflexivity].
    simpl; f_equal. apply filter_ext_in. intros o Ho.
    destruct (Htod sem base Hsem eq_refl o Ho) as [Ht _].
    unfold not_excluded; f_equal.
    induction E as [|e E IHE]; simpl; [reflexivity|].
    destruct (dt_eqb (oc_date o) e) eqn:D.
    + apply dt_eqb_eq in D. subst e. rewrite Ht, Z.eqb_refl. simpl.
      rewrite <- Ht, dt_eqb_refl. reflexivity.
    + destruct (dt_tod e =? dt_tod (start_date sem)); simpl; rewrite ?D; exact IHE.
Qed.

(** ** Notation parser *)

Lemma pystr_eqb_eq : forall a b, pystr_eqb a b = true -> a = b.
Proof.
  induction a as [|x a IH]; intros [|y b]; simpl; try discriminate; [reflexivity|].
  intros H; apply andb_prop in H as [H1 H2]. apply Z.eqb_eq in H1; subst.
  f_equal; now apply IH.
Qed.

Lemma dict_get_in {K V : Type} (eqb : K -> K -> bool) : forall k d (v : V),
  dict_get eqb k d = Some v -> exists k', In (k', v) d /\ eqb k k' = true.
Proof.
  intros k d v; induction d as [|[k' v'] d IH]; simpl; [discriminate|].
  destruct (eqb k k') eqn:E.
  - intros H; injection H as <-. exists k'; auto.
  - intros H; destruct (IH H) as (k'' & H1 & H2); eauto.
Qed.


(** C5: for every token [w] of the weekday table and every period [p] in
    1..14, [parse_schedule] of ["<w><p>"] is exactly one session with
    start and end period [p], the weekday index of [w], and the period
    table's times for [p]. *)
Theorem parse_single_token : forall w i p,
  dict_get pystr_eqb w WEEKDAY_MAP = Some i -> 1 <= p <= 14 ->
  exists st et, get_period_time p = Some (st, et) /\
    parse_schedule (w ++ dec p) =
      Ok [{| weekday := i; start_period := p; end_period := p;
             start_time := st; end_time := et |}].
Proof.
  intros w i p Hw Hp.
  destruct (dict_get_in _ _ _ _ Hw) as (k & Hin & Hk).
  apply pystr_eqb_eq in Hk; subst k.
  assert (p = 1 \/ p = 2 \/ p = 3 \/ p = 4 \/ p = 5 \/ p = 6 \/ p = 7 \/ p = 8 \/
          p = 9 \/ p = 10 \/ p = 11 \/ p = 12 \/ p = 13 \/ p = 14) as Hc by lia.
  clear Hw Hp.
  unfold WEEKDAY_MAP in Hin.
  repeat destruct Hin as [Hin|Hin]; try contradiction; injection Hin as <- <-;
    repeat destruct Hc as [-> | Hc]; subst;
    (do 2 eexists; split; [reflexivity|]; vm_compute; reflexivity).
Qed.

Lemma parse_single_token_witness :
  dict_get pystr_eqb (lit "Wed") WEEKDAY_MAP = Some 2 /\ 1 <= 9 <= 14 /\
  exists st et, get_period_time 9 = Some (st, et) /\
    parse_schedule (lit "Wed" ++ dec 9) =
      Ok [{| weekday := 2; start_period := 9; end_period := 9;
             start_time := st; end_time := et |}].
Proof.
  assert (Hw : dict_get pystr_eqb (lit "Wed") WEEKDAY_MAP = Some 2) by reflexivity.
  assert (Hp : 1 <= 9 <= 14) by lia.
  split; [exact Hw|]. split; [exact Hp|].
  exact (parse_single_token (lit "Wed") 2 9 Hw Hp).
Defined.

Lemma zero_of_spec : forall zs c z, zero_of zs c = Some z -> In z zs /\ z <= c <= z + 9.
Proof.
  induction zs as [|z0 zs IH]; intros c z H; cbn [zero_of] in H; [discriminate|].
  destruct ((z0 <=? c) && (c <=? z0 + 9)) eqn:E.
  - injection H as <-. apply andb_prop in E as [E1 E2]. apply Z.leb_le in E1, E2.
    split; [now left|lia].
  - destruct (IH c z H) as [H1 H2]. split; [now right|exact H2].
Qed.

Lemma digit_in_points : forall c, is_digit c = true -> In c digit_points.
Proof.
  intros c H. unfold is_digit in H.
  destruct (digit_zero c) as [z|] eqn:E; [|discriminate].
  apply zero_of_spec in E as [Hz Hc].
  unfold digit_points. apply in_flat_map. exists z. split; [exact Hz|].
  apply in_map_iff. exists (c - z). split; [lia|]. simpl. lia.
Qed.

(** A property of every decimal digit, checked on the table. *)
Lemma digit_prop : forall q, forallb q digit_points = true ->
  forall c, is_digit c = true -> q c = true.
Proof.
  intros q Hq c Hc. rewrite forallb_forall in Hq. apply Hq, digit_in_points, Hc.
Qed.

Lemma digit_ge_48 : forall c, is_digit c = true -> 48 <= c.
Proof.
  intros c H. apply Z.leb_le.
  exact (digit_prop (fun c => 48 <=? c) ltac:(vm_compute; reflexivity) c H).
Qed.

Lemma digit_ascii : forall c, is_digit c = true -> c < 128 -> 48 <= c <= 57.
Proof.
  intros c H Hc.
  pose proof (digit_prop (fun c => (128 <=? c) || is_ascii_digit c)
                ltac:(vm_compute; reflexivity) c H) as D.
  apply orb_true_iff in D as [D|D]; [apply Z.leb_le in D; lia|].
  apply andb_prop in D as [D1 D2]. apply Z.leb_le in D1, D2. lia.
Qed.

Lemma ascii_digit_zero : forall c, 48 <= c <= 57 -> digit_zero c = Some 48.
Proof.
  intros c Hc. unfold digit_zero, decimal_zeros. cbn [zero_of].
  replace ((48 <=? c) && (c <=? 48 + 9)) with true; [reflexivity|].
  symmetry; apply andb_true_intro; split; apply Z.leb_le; lia.
Qed.

Lemma ascii_is_digit : forall c, is_ascii_digit c = true -> is_digit c = true.
Proof.
  intros c H. apply andb_prop in H as [H1 H2]. apply Z.leb_le in H1, H2.
  unfold is_digit. now rewrite ascii_digit_zero by lia.
Qed.

Lemma digit_val_range : forall c, is_digit c = true -> 0 <= digit_val c <= 9.
Proof.
  intros c H. unfold is_digit in H. unfold digit_val.
  destruct (digit_zero c) as [z|] eqn:E; [|discriminate].
  apply zero_of_spec in E. lia.
Qed.

Lemma digit_not_wd : forall c, is_digit c = true -> is_wd_char c = false.
Proof.
  intros c H. apply negb_true_iff.
  exact (digit_prop (fun c => negb (is_wd_char c)) ltac:(vm_compute; reflexivity) c H).
Qed.

Lemma space_cases : forall c, is_space c = true ->
  c <= 32 \/ c = 133 \/ c = 160 \/ 5760 <= c.
Proof.
  intros c H. unfold is_space in H.
  apply existsb_exists in H as (x & Hx & Ex). apply Z.eqb_eq in Ex; subst.
  simpl in Hx. lia.
Qed.

Lemma digit_not_space : forall c, is_digit c = true -> is_space c = false.
Proof.
  intros c H. apply negb_true_iff.
  exact (digit_prop (fun c => negb (is_space c)) ltac:(vm_compute; reflexivity) c H).
Qed.

Lemma wd_not_space : forall c, is_wd_char c = true -> is_space c = false.
Proof.
  intros c H. apply not_true_iff_false; intros E.
  unfold is_wd_char in H.
  apply orb_true_iff in H as [H|H]; [apply orb_true_iff in H as [H|H]|].
  - apply existsb_exists in H as (x & Hx & Ex). apply Z.eqb_eq in Ex; subst.
    unfold ch_mon, ch_tue, ch_wed, ch_thu, ch_fri, ch_sat, ch_sun in Hx.
    simpl in Hx. repeat destruct Hx as [<-|Hx]; try contradiction;
      discriminate E.
  - apply andb_prop in H as [H1 H2]; apply Z.leb_le in H1, H2.
    apply space_cases in E; lia.
  - apply andb_prop in H as [H1 H2]; apply Z.leb_le in H1, H2.
    apply space_cases in E; lia.
Qed.

Lemma wd_not_comma : forall c, is_wd_char c = true -> c <> 44.
Proof. intros c H ->. discriminate H. Qed.

Lemma digit_not_comma : forall c, is_digit c = true -> c <> 44.
Proof. intros c H. apply digit_ge_48 in H. lia. Qed.

Lemma drop_while_head : forall p l,
  (forall c r, l = c :: r -> p c = false) -> drop_while p l = l.
Proof.
  intros p [|c r] H; [reflexivity|]. simpl. now rewrite (H c r eq_refl).
Qed.

(** [int] of a run of decimal digits. *)

Lemma strip_by_noop : forall p l,
  (forall c r, l = c :: r -> p c = false) ->
  (forall c r, rev l = c :: r -> p c = false) ->
  strip_by p l = l.
Proof.
  intros p l H1 H2. unfold strip_by.
  rewrite (drop_while_head _ _ H1), (drop_while_head _ _ H2).
  apply rev_involutive.
Qed.

Lemma ascii_digit_not_space : forall c, is_ascii_digit c = true -> is_ascii_space c = false.
Proof.
  intros c H. apply andb_prop in H as [H1 H2]. apply Z.leb_le in H1, H2.
  unfold is_ascii_space. cbn [existsb].
  repeat rewrite (proj2 (Z.eqb_neq _ _)) by lia. reflexivity.
Qed.

Lemma int_char_digit : forall c, is_digit c = true -> int_ascii_char c = 48 + digit_val c.
Proof.
  intros c H. unfold int_ascii_char.
  destruct (Z.ltb_spec c 127) as [L|L].
  - pose proof (digit_ascii c H ltac:(lia)) as A.
    unfold digit_val. rewrite ascii_digit_zero by lia. lia.
  - rewrite digit_not_space by exact H.
    unfold is_digit in H. unfold digit_val.
    destruct (digit_zero c); [reflexivity|discriminate].
Qed.

Lemma int_text_digits_app : forall d b, Forall (fun c => is_digit c = true) d ->
  exists b', int_text (d ++ b) = map (fun c => 48 + digit_val c) d ++ b' /\
    (b' = b \/ b' = map int_ascii_char b).
Proof.
  intros d b Hd. unfold int_text.
  destruct (forallb (fun c => c <? 128) (d ++ b)) eqn:A.
  - exists b. split; [|now left]. f_equal.
    rewrite forallb_app in A. apply andb_prop in A as [A _].
    induction Hd as [|c d Hc Hd IH]; [reflexivity|].
    cbn [forallb] in A. apply andb_prop in A as [A1 A2]. apply Z.ltb_lt in A1.
    cbn [map]. rewrite <- (IH A2). f_equal.
    pose proof (digit_ascii c Hc A1).
    unfold digit_val. rewrite ascii_digit_zero by lia. lia.
  - exists (map int_ascii_char b). split; [|now right].
    rewrite map_app. f_equal. clear A.
    induction Hd as [|c d Hc Hd IH]; [reflexivity|].
    cbn [map]. rewrite IH. f_equal. now apply int_char_digit.
Qed.

Lemma digits_ascii : forall d, Forall (fun c => is_digit c = true) d ->
  Forall (fun c => is_ascii_digit c = true) (map (fun c => 48 + digit_val c) d).
Proof.
  induction 1 as [|c d Hc Hd IH]; constructor; [|exact IH].
  pose proof (digit_val_range c Hc).
  apply andb_true_intro; split; apply Z.leb_le; lia.
Qed.

Lemma forall_filter_id {A : Type} (f : A -> bool) : forall l,
  Forall (fun x => f x = true) l -> List.filter f l = l.
Proof. induction 1 as [|x l Hx H IH]; simpl; [reflexivity|]. now rewrite Hx, IH. Qed.

Lemma valid_body_digits : forall b l, Forall (fun c => is_ascii_digit c = true) l ->
  valid_body b l = b || match l with [] => false | _ => true end.
Proof.
  intros b l H; revert b; induction H as [|c l Hc H IH]; intros b; simpl.
  - now rewrite orb_false_r.
  - rewrite Hc, IH. now destruct b, l.
Qed.

(** Once rewritten to ASCII, a run of at most 4300 digits is read as its
    value. *)
Lemma py_int_ascii_digits : forall s e, int_text s = e -> e <> [] ->
  Forall (fun c => is_ascii_digit c = true) e ->
  Z.of_nat (List.length e) <= int_max_str_digits -> py_int s = Ok (digits_value 0 e).
Proof.
  intros s e Hs Hne Hall Hlen. unfold py_int. rewrite Hs.
  rewrite strip_by_noop.
  2:{ intros c r E. rewrite E in Hall. apply ascii_digit_not_space. now inversion Hall. }
  2:{ intros c r E. apply ascii_digit_not_space.
      assert (In c e) by (rewrite in_rev, E; now left).
      rewrite Forall_forall in Hall; auto. }
  destruct e as [|c r]; [contradiction|].
  assert (Hc : is_ascii_digit c = true) by (now inversion Hall).
  apply andb_prop in Hc as [H1 H2]. apply Z.leb_le in H1, H2.
  replace (c =? 45) with false by (symmetry; apply Z.eqb_neq; lia).
  replace (c =? 43) with false by (symmetry; apply Z.eqb_neq; lia).
  rewrite valid_body_digits by exact Hall. simpl negb. cbv iota.
  rewrite forall_filter_id by exact Hall.
  replace (int_max_str_digits <? Z.of_nat (List.length (c :: r))) with false
    by (symmetry; apply Z.ltb_ge; exact Hlen).
  f_equal. lia.
Qed.

Lemma py_int_digits : forall ds, ds <> [] -> Forall (fun c => is_digit c = true) ds ->
  Z.of_nat (List.length ds) <= int_max_str_digits -> py_int ds = Ok (decimal_value ds).
Proof.
  intros ds Hne Hall Hlen.
  destruct (int_text_digits_app ds [] Hall) as (b' & E & Hb).
  replace b' with (@nil Z) in E by (destruct Hb; subst; reflexivity).
  rewrite !app_nil_r in E.
  apply (py_int_ascii_digits ds _ E).
  - destruct ds; [contradiction|discriminate].
  - now apply digits_ascii.
  - now rewrite length_map.
Qed.

Lemma tokens_periods : forall ts, Forall token_wf ts ->
  Forall (fun tk => Z.of_nat (List.length (tk_digits tk)) <= int_max_str_digits) ts ->
  Forall2 (fun t p => py_int (tk_digits t) = Ok p) ts (map token_period ts).
Proof.
  induction 1 as [|t ts Ht Hts IH]; intros Hl; constructor.
  - destruct Ht as (_ & _ & Hd0 & Hd). inversion Hl; subst.
    now apply py_int_digits.
  - inversion Hl; subst. now apply IH.
Qed.

Lemma span_app : forall (p : Z -> bool) a b,
  Forall (fun c => p c = true) a ->
  (forall c r, b = c :: r -> p c = false) ->
  span p (a ++ b) = (a, b).
Proof.
  intros p a b Ha Hb. induction Ha as [|x a Hx Ha IH]; simpl.
  - destruct b as [|c r]; [reflexivity|]. simpl. now rewrite (Hb c r eq_refl).
  - rewrite Hx, IH. reflexivity.
Qed.

Lemma group_chars : forall ts, Forall token_wf ts ->
  Forall group_char (group_str ts).
Proof.
  induction 1 as [|t ts Ht Hts IH]; [constructor|].
  destruct Ht as (_ & Hw & _ & Hd).
  unfold group_str; simpl; fold (group_str ts).
  unfold token_str. rewrite <- !app_assoc.
  apply Forall_app; split; [|apply Forall_app; split; [|apply Forall_app; split]].
  - destruct (tk_slash t); [constructor; [now left|constructor]|constructor].
  - eapply Forall_impl; [|exact Hw]. intros c Hc; right; now left.
  - eapply Forall_impl; [|exact Hd]. intros c Hc; right; now right.
  - exact IH.
Qed.

Lemma group_head_not_digit : forall ts c r, Forall token_wf ts ->
  group_str ts = c :: r -> is_digit c = false.
Proof.
  intros ts c r Hts. destruct Hts as [|t ts Ht _]; [discriminate|].
  destruct Ht as (Hw0 & Hw & _).
  unfold group_str; simpl. unfold token_str.
  destruct (tk_slash t); simpl.
  - intros H; injection H as <- _. reflexivity.
  - destruct (tk_wd t) as [|x w] eqn:E; [contradiction|].
    simpl; intros H; injection H as <- _.
    inversion Hw as [|? ? Hx]; subst.
    destruct (is_digit x) eqn:D; [|reflexivity].
    apply digit_not_wd in D; congruence.
Qed.

Lemma match_at_token : forall w d rest,
  w <> [] -> Forall (fun c => is_wd_char c = true) w ->
  d <> [] -> Forall (fun c => is_digit c = true) d ->
  (forall c r, rest = c :: r -> is_digit c = false) ->
  match_at (w ++ d ++ rest) = Some (w, d, rest).
Proof.
  intros w d rest Hw0 Hw Hd0 Hd Hr. unfold match_at.
  rewrite (span_app is_wd_char w (d ++ rest) Hw).
  - rewrite (span_app is_digit d rest Hd Hr).
    destruct w; [contradiction|]. destruct d; [contradiction|]. reflexivity.
  - intros c r E. destruct d as [|x d]; [contradiction|].
    simpl in E; injection E as <- _.
    inversion Hd; subst. now apply digit_not_wd.
Qed.

Lemma findall_fuel_match : forall f s w d r,
  match_at s = Some (w, d, r) -> findall_fuel (S f) s = (w, d) :: findall_fuel f r.
Proof.
  intros f [|c s'] w d r H; [discriminate H|].
  cbn [findall_fuel]. rewrite H. reflexivity.
Qed.

Lemma findall_fuel_skip : forall f c s',
  match_at (c :: s') = None -> findall_fuel (S f) (c :: s') = findall_fuel f s'.
Proof.
  intros f c s' H. cbn [findall_fuel]. rewrite H. reflexivity.
Qed.

Lemma findall_group : forall ts fuel, Forall token_wf ts ->
  (List.length (group_str ts) <= fuel)%nat ->
  findall_fuel fuel (group_str ts) = map token_match ts.
Proof.
  induction ts as [|t ts IH]; intros fuel Hwf Hlen.
  - destruct fuel; reflexivity.
  - inversion Hwf as [|? ? Ht Hts]; subst.
    pose proof Ht as (Hw0 & Hw & Hd0 & Hd).
    assert (Hlw : (1 <= List.length (tk_wd t))%nat)
      by (destruct (tk_wd t); [contradiction|simpl; lia]).
    assert (Hld : (1 <= List.length (tk_digits t))%nat)
      by (destruct (tk_digits t); [contradiction|simpl; lia]).
    assert (Hm : forall f,
              (List.length (tk_wd t ++ tk_digits t ++ group_str ts) <= f)%nat ->
              findall_fuel f (tk_wd t ++ tk_digits t ++ group_str ts)
              = token_match t :: map token_match ts).
    { intros f Hf. rewrite !length_app in Hf.
      destruct f as [|f]; [lia|].
      rewrite (findall_fuel_match f _ _ _ _
                 (match_at_token _ _ _ Hw0 Hw Hd0 Hd
                    (fun c r E => group_head_not_digit ts c r Hts E))).
      f_equal. apply IH; [exact Hts|lia]. }
    change (group_str (t :: ts)) with (token_str t ++ group_str ts) in *.
    unfold token_str in *.
    destruct (tk_slash t).
    + rewrite <- !app_assoc in *. cbn [app] in *.
      destruct fuel as [|f]; [simpl in Hlen; lia|].
      rewrite findall_fuel_skip by reflexivity.
      apply Hm. simpl in Hlen; lia.
    + cbn [app] in *. rewrite <- !app_assoc in *. apply Hm. exact Hlen.
Qed.

Lemma collect_tokens : forall ts ps w acc,
  Forall2 (fun t p => py_int (tk_digits t) = Ok p) ts ps ->
  collect_periods (Some w) acc (map token_match ts) = Ok (Some (Some w, acc ++ ps)).
Proof.
  intros ts ps w acc H. revert acc.
  induction H as [|t p ts ps Hp H IH]; intros acc.
  - simpl. now rewrite app_nil_r.
  - simpl. rewrite Hp. simpl. rewrite IH. now rewrite <- app_assoc.
Qed.

Lemma split_on_no_sep : forall sep l, Forall (fun c => c <> sep) l ->
  split_on sep l = [l].
Proof.
  intros sep l H. induction H as [|c l Hc H IH]; [reflexivity|].
  simpl. destruct (Z.eqb_spec c sep); [contradiction|]. now rewrite IH.
Qed.

Lemma strip_ws_noop : forall l,
  (forall c r, l = c :: r -> is_space c = false) ->
  (forall c r, rev l = c :: r -> is_space c = false) ->
  strip_ws l = l.
Proof.
  intros l H1 H2. unfold strip_ws, strip_by.
  rewrite (drop_while_head _ _ H1), (drop_while_head _ _ H2).
  apply rev_involutive.
Qed.

Lemma group_last_digit : forall ts, Forall token_wf ts -> ts <> [] ->
  exists pre c, group_str ts = pre ++ [c] /\ is_digit c = true.
Proof.
  induction 1 as [|t ts Ht Hts IH]; intros Hne; [congruence|].
  destruct ts as [|t' ts'].
  - destruct Ht as (_ & _ & Hd0 & Hd).
    destruct (exists_last Hd0) as (d' & c & Ed).
    exists ((if tk_slash t then [slash] else []) ++ tk_wd t ++ d'), c.
    split.
    + unfold group_str; simpl. unfold token_str. rewrite Ed.
      rewrite !app_nil_r, <- !app_assoc. reflexivity.
    + rewrite Ed in Hd. apply Forall_app in Hd as [_ Hc].
      now inversion Hc.
  - destruct IH as (pre & c & E & Hc); [discriminate|].
    exists (token_str t ++ pre), c. split; [|exact Hc].
    change (group_str (t :: t' :: ts')) with (token_str t ++ group_str (t' :: ts')).
    rewrite E. apply app_assoc.
Qed.




(** ** Notation parser: exceptions *)

(** C7: [parse_schedule] is not total.  Its loop calls [int(period_str)]
    on every digit run before anything else, outside any [try]; a run of
    more than 4300 digits makes [int] raise [ValueError].  With 4300
    digits the call returns, with no session. *)
Theorem parse_schedule_raises_long_period :
  parse_schedule (ch_wed :: repeat 49 4301) = Raise ValueError /\
  parse_schedule (ch_wed :: repeat 49 4300) = Ok [].
Proof. split; vm_compute; reflexivity. Qed.

(** ** Legacy fallback *)







(** ** Course row interpreter *)

(** C9: [parse_course_row] never raises.  It returns [None] when the
    year, the semester, the name or the schedule notation is missing or
    empty, and when the notation parses to no session. *)
Theorem course_row_never_raises : forall r,
  (exists v, parse_course_row r = Ok v) /\
  (truthy (row_year r) = false \/ truthy (row_semester r) = false \/
   truthy (row_name r) = false \/ truthy (row_schedule r) = false ->
   parse_course_row r = Ok None) /\
  (forall sch, row_schedule r = Some sch -> parse_schedule sch = Ok [] ->
   parse_course_row r = Ok None).
Proof.
  intros r. split; [|split].
  - unfold parse_course_row, try_except_all.
    destruct (parse_course_row_body r); eauto.
  - intros Hm. unfold parse_course_row, parse_course_row_body. cbv zeta.
    replace (truthy (row_year r) && truthy (row_semester r) && truthy (row_name r)
             && truthy (row_schedule r)) with false; [reflexivity|].
    destruct Hm as [H|[H|[H|H]]]; rewrite H; now rewrite ?andb_false_r.
  - intros sch Hs Hp. unfold parse_course_row, parse_course_row_body. cbv zeta.
    rewrite Hs.
    destruct (negb _); [reflexivity|].
    destruct (row_year r) as [y|]; [|reflexivity].
    destruct (row_semester r) as [s|]; [|reflexivity].
    destruct (let* yv := py_int y in let* sv := py_int s in Ok (yv, sv))
      as [[yv sv]|[]]; try reflexivity.
    cbn [exc_bind]. rewrite Hp. reflexivity.
Qed.

Lemma course_row_never_raises_witness :
  parse_course_row row_without_schedule = Ok None.
Proof.
  apply (proj1 (proj2 (course_row_never_raises row_without_schedule))).
  right; right; right. reflexivity.
Defined.

(** * Examples *)


Example parse_scenario_A :
  parse_schedule [ch_wed; 57; slash; ch_wed; 49; 48; slash; ch_wed; 49; 49] =
  Ok [{| weekday := 2; start_period := 9; end_period := 11;
         start_time := hm 14 10; end_time := hm 17 10 |}].
Proof. vm_compute. reflexivity. Qed.

Example parse_scenario_B :
  parse_schedule [ch_tue; 50; 44; ch_fri; 52] =
  Ok [{| weekday := 1; start_period := 2; end_period := 2;
         start_time := hm 7 10; end_time := hm 8 0 |};
      {| weekday := 4; start_period := 4; end_period := 4;
         start_time := hm 9 10; end_time := hm 10 0 |}].
Proof. vm_compute. reflexivity. Qed.

Example findall_mixed :
  findall (lit "x" ++ [ch_wed; 57; slash] ++ lit "Wed10" ++ [ch_wed] ++ lit "11ab c12 d")
  = [(lit "x" ++ [ch_wed], lit "9"); (lit "Wed", lit "10"); ([ch_wed], lit "11");
     (lit "c", lit "12")].
Proof. vm_compute. reflexivity. Qed.

Example py_int_cases :
  py_int (lit " 12 ") = Ok 12 /\ py_int (lit "-1") = Ok (-1) /\
  py_int (lit "1_0") = Ok 10 /\ py_int (lit "_1") = Raise ValueError /\
  py_int (lit "1__0") = Raise ValueError /\ py_int (lit "1_") = Raise ValueError /\
  py_int [] = Raise ValueError /\ py_int (lit "- 1") = Raise ValueError /\
  py_int [65299] = Ok 3 /\ py_int [49; 65298] = Ok 12 /\
  py_int [12288; 49; 50; 12288] = Ok 12 /\ py_int [1635; 51] = Ok 33 /\
  py_int [49; 50; 28] = Raise ValueError /\ py_int [28; 49; 50; 65299] = Raise ValueError /\
  py_int [49; 50; 65299; 127] = Raise ValueError.
Proof. vm_compute. repeat split; reflexivity. Qed.

Example ord_checks :
  ymd2ord 2025 9 1 = 739495 /\ ymd2ord 2026 1 31 = 739647 /\
  ymd2ord 9999 12 31 = MAXORDINAL /\ dt_weekday (mk_dt 2025 9 3) = 2 /\
  dt_weekday (mk_dt 2024 9 1) = 6.
Proof. vm_compute. repeat split; reflexivity. Qed.

Example scenario_E_weeks :
  match smart_mode SEMESTER_DATABASE 114 1 wed_9_11 with
  | Ok bs => map tb_week bs = map Z.of_nat (seq 1 18) /\
             map tb_date (firstn 1 bs) = [mk_dt 2025 9 3]
  | Raise _ => False
  end.
Proof. vm_compute. split; reflexivity. Qed.

Example sample_row_parsed :
  match parse_course_row sample_row with
  | Ok (Some c) => c_year c = 114 /\ c_name c = lit "Theory" /\
                   c_hours c = Some 3 /\ c_credits c = Some 3 /\
                   List.length (c_schedule_sessions c) = 1%nat
  | _ => False
  end.
Proof. vm_compute. repeat split; reflexivity. Qed.

(** * Further properties of the code *)

(** ** Notation parser: invariants *)

Lemma fold_min_le : forall r x, fold_left Z.min r x <= x.
Proof.
  induction r as [|y r IH]; intros x; simpl; [lia|].
  specialize (IH (Z.min x y)). lia.
Qed.

Lemma fold_max_ge : forall r x, x <= fold_left Z.max r x.
Proof.
  induction r as [|y r IH]; intros x; simpl; [lia|].
  specialize (IH (Z.max x y)). lia.
Qed.

Lemma list_min_le_max : forall l, list_min l <= list_max l.
Proof.
  intros [|x r]; simpl; [lia|].
  pose proof (fold_min_le r x); pose proof (fold_max_ge r x); lia.
Qed.

Lemma period_table_entry : forall p st et, get_period_time p = Some (st, et) ->
  1 <= p <= 14 /\ st < et.
Proof.
  intros p st et H. apply dict_get_in in H as (k & Hin & Hk).
  apply Z.eqb_eq in Hk; subst k.
  unfold CLASS_PERIODS, hm in Hin. simpl in Hin.
  repeat destruct Hin as [Hin|Hin]; try contradiction;
    injection Hin; intros; subst; lia.
Qed.

(** Later periods never end before earlier ones start. *)
Lemma period_table_order : forall p q s1 e1 s2 e2,
  get_period_time p = Some (s1, e1) -> get_period_time q = Some (s2, e2) ->
  p <= q -> s1 < e2.
Proof.
  intros p q s1 e1 s2 e2 Hp Hq Hpq.
  apply dict_get_in in Hp as (k & Hin & Hk). apply Z.eqb_eq in Hk; subst k.
  apply dict_get_in in Hq as (k & Hin' & Hk). apply Z.eqb_eq in Hk; subst k.
  unfold CLASS_PERIODS, hm in Hin, Hin'. simpl in Hin, Hin'.
  repeat destruct Hin as [Hin|Hin]; try contradiction; injection Hin; intros; subst;
    repeat destruct Hin' as [Hin'|Hin']; try contradiction; injection Hin'; intros; subst;
    lia.
Qed.

Lemma weekday_map_range : forall w i, dict_get pystr_eqb w WEEKDAY_MAP = Some i ->
  0 <= i <= 6.
Proof.
  intros w i H. apply dict_get_in in H as (k & Hin & _).
  unfold WEEKDAY_MAP in Hin. simpl in Hin.
  repeat match goal with H : _ \/ _ |- _ => destruct H as [H|H] end;
    try contradiction; injection Hin; intros; subst; lia.
Qed.

Definition wd_ok (wd : option Z) : Prop :=
  match wd with Some w => 0 <= w <= 6 | None => True end.

Lemma collect_periods_wd : forall ms wd acc wd' ps,
  wd_ok wd -> collect_periods wd acc ms = Ok (Some (wd', ps)) ->
  wd_ok wd' /\ (acc <> [] -> ps <> []).
Proof.
  induction ms as [|[a b] ms IH]; intros wd acc wd' ps Hwd H; cbn [collect_periods] in H.
  - injection H as <- <-. auto.
  - destruct (py_int b) as [p|e]; cbn [exc_bind] in H; [|discriminate H].
    destruct wd as [w|].
    + destruct (IH _ _ _ _ Hwd H) as [H1 H2]. split; [exact H1|].
      intros _; apply H2; intros Hc; apply app_eq_nil in Hc as [_ Hc]; discriminate Hc.
    + destruct (dict_get pystr_eqb a WEEKDAY_MAP) as [w|] eqn:E; [|simpl in H; discriminate H].
      destruct (IH (Some w) _ _ _ (weekday_map_range _ _ E) H) as [H1 H2].
      split; [exact H1|]. intros _; apply H2; intros Hc; apply app_eq_nil in Hc as [_ Hc]; discriminate Hc.
Qed.

(** What one group can give: nothing, or one well-formed session. *)
Definition session_ok (c : ClassSession) : Prop :=
  0 <= weekday c <= 6 /\ 1 <= start_period c <= end_period c /\ end_period c <= 14 /\
  (exists e, get_period_time (start_period c) = Some (start_time c, e)) /\
  (exists b, get_period_time (end_period c) = Some (b, end_time c)) /\
  start_time c < end_time c.

Lemma parse_single_shape : forall x l, parse_single_schedule x = Ok l ->
  (List.length l <= 1)%nat /\ Forall session_ok l.
Proof.
  intros x l H. unfold parse_single_schedule in H.
  destruct (findall x) as [|m ms]; [injection H as <-; auto|].
  destruct (collect_periods None [] (m :: ms)) as [[[wd ps]|]|e] eqn:C;
    simpl in H; [|injection H as <-; auto|discriminate].
  destruct (collect_periods_wd _ None _ _ _ I C) as [Hwd _].
  destruct ps as [|p ps']; [injection H as <-; auto|].
  destruct wd as [w|]; [|injection H as <-; auto].
  destruct (get_period_time (list_min (p :: ps'))) as [[st e1]|] eqn:E1;
    [|injection H as <-; auto].
  destruct (get_period_time (list_max (p :: ps'))) as [[s2 et]|] eqn:E2;
    [|injection H as <-; auto].
  injection H as <-. split; [simpl; lia|].
  constructor; [|constructor].
  pose proof (list_min_le_max (p :: ps')) as Hle.
  destruct (period_table_entry _ _ _ E1) as [[A1 _] _].
  destruct (period_table_entry _ _ _ E2) as [[_ A2] _].
  pose proof (period_table_order _ _ _ _ _ _ E1 E2 Hle) as Hord.
  simpl in Hwd.
  unfold session_ok; cbn [weekday start_period end_period start_time end_time].
  repeat split; try lia; eauto.
Qed.

Lemma parse_parts_shape : forall parts l, parse_parts parts = Ok l ->
  (List.length l <= List.length parts)%nat /\ Forall session_ok l.
Proof.
  induction parts as [|p ps IH]; intros l H; simpl in H.
  - injection H as <-. auto.
  - destruct (parse_single_schedule (strip_ws p)) as [s|e] eqn:E1; simpl in H; [|discriminate].
    destruct (parse_parts ps) as [r|e] eqn:E2; simpl in H; [|discriminate].
    injection H as <-.
    destruct (parse_single_shape _ _ E1) as [L1 F1].
    destruct (IH _ eq_refl) as [L2 F2].
    rewrite length_app; simpl; split; [lia|]. now apply Forall_app.
Qed.

Lemma parse_schedule_perm : forall x l, parse_schedule x = Ok l ->
  exists ss, parse_parts (split_on 44 x) = Ok ss /\ l = sort_stable session_key_lt ss.
Proof.
  intros x l H. unfold parse_schedule in H.
  destruct (parse_parts (split_on 44 x)) as [ss|e]; simpl in H; [|discriminate].
  injection H as <-. eauto.
Qed.

Lemma session_key_lt_asym : forall a b,
  session_key_lt a b = true -> session_key_lt b a = false.
Proof.
  intros [aw asp aep ast aet] [bw bsp bep bst bet]; unfold session_key_lt; simpl; zcases.
Qed.

Lemma Sorted_weaken {A : Type} (R1 R2 : A -> A -> Prop) :
  (forall a b, R1 a b -> R2 a b) -> forall l, Sorted R1 l -> Sorted R2 l.
Proof.
  intros Himp l H. induction H as [|x l Hl IH Hhd]; constructor; [exact IH|].
  destruct Hhd; constructor. now apply Himp.
Qed.

(** X1: every session [parse_schedule] returns is well formed: weekday
    0..6, [1 <= start_period <= end_period <= 14], start and end times
    taken from the period table, and the start before the end. *)
Theorem parse_schedule_sessions_valid : forall x l, parse_schedule x = Ok l ->
  forall c, In c l ->
    0 <= weekday c <= 6 /\ 1 <= start_period c <= end_period c /\ end_period c <= 14 /\
    (exists e, get_period_time (start_period c) = Some (start_time c, e)) /\
    (exists b, get_period_time (end_period c) = Some (b, end_time c)) /\
    start_time c < end_time c.
Proof.
  intros x l H c Hc.
  destruct (parse_schedule_perm _ _ H) as (ss & Hss & ->).
  destruct (parse_parts_shape _ _ Hss) as [_ F].
  apply (Permutation_in _ (sort_stable_perm session_key_lt ss)) in Hc.
  rewrite Forall_forall in F. exact (F c Hc).
Qed.

Lemma parse_schedule_sessions_valid_witness :
  parse_schedule [ch_wed; 57; slash; ch_wed; 49; 48; 44; ch_fri; 52] =
    Ok [wed_session_9_10; fri_session_4] /\
  forall c, In c [wed_session_9_10; fri_session_4] ->
    0 <= weekday c <= 6 /\ 1 <= start_period c <= end_period c /\ end_period c <= 14 /\
    (exists e, get_period_time (start_period c) = Some (start_time c, e)) /\
    (exists b, get_period_time (end_period c) = Some (b, end_time c)) /\
    start_time c < end_time c.
Proof.
  assert (H : parse_schedule [ch_wed; 57; slash; ch_wed; 49; 48; 44; ch_fri; 52] =
              Ok [wed_session_9_10; fri_session_4]) by (vm_compute; reflexivity).
  split; [exact H|]. exact (parse_schedule_sessions_valid _ _ H).
Defined.

(** X2: [parse_schedule] returns its sessions ordered by weekday, then
    by start period. *)
Theorem parse_schedule_sorted : forall x l, parse_schedule x = Ok l ->
  Sorted (fun a b => weekday a < weekday b \/
                     (weekday a = weekday b /\ start_period a <= start_period b)) l.
Proof.
  intros x l H.
  destruct (parse_schedule_perm _ _ H) as (ss & _ & ->).
  eapply Sorted_weaken; [|apply (sort_stable_sorted _ session_key_lt_asym)].
  intros [aw asp aep ast aet] [bw bsp bep bst bet]; unfold not_after, session_key_lt; simpl.
  zcases.
Qed.

Lemma parse_schedule_sorted_witness :
  parse_schedule [ch_fri; 52; 44; ch_wed; 57; slash; ch_wed; 49; 48] =
    Ok [wed_session_9_10; fri_session_4] /\
  Sorted (fun a b => weekday a < weekday b \/
                     (weekday a = weekday b /\ start_period a <= start_period b))
    [wed_session_9_10; fri_session_4].
Proof.
  assert (H : parse_schedule [ch_fri; 52; 44; ch_wed; 57; slash; ch_wed; 49; 48] =
              Ok [wed_session_9_10; fri_session_4]) by (vm_compute; reflexivity).
  split; [exact H|]. exact (parse_schedule_sorted _ _ H).
Defined.

(** X3: [parse_schedule] gives at most one session per comma-separated
    part of its input. *)
Theorem parse_schedule_one_per_part : forall x l, parse_schedule x = Ok l ->
  (List.length l <= List.length (split_on 44 x))%nat.
Proof.
  intros x l H.
  destruct (parse_schedule_perm _ _ H) as (ss & Hss & ->).
  rewrite (Permutation_length (sort_stable_perm session_key_lt ss)).
  exact (proj1 (parse_parts_shape _ _ Hss)).
Qed.

Lemma parse_schedule_one_per_part_witness :
  parse_schedule [ch_fri; 52; 44; ch_wed; 57; slash; ch_wed; 49; 48] =
    Ok [wed_session_9_10; fri_session_4] /\
  le (List.length [wed_session_9_10; fri_session_4])
     (List.length (split_on 44 [ch_fri; 52; 44; ch_wed; 57; slash; ch_wed; 49; 48])).
Proof.
  assert (H : parse_schedule [ch_fri; 52; 44; ch_wed; 57; slash; ch_wed; 49; 48] =
              Ok [wed_session_9_10; fri_session_4]) by (vm_compute; reflexivity).
  split; [exact H|]. exact (parse_schedule_one_per_part _ _ H).
Defined.

Lemma span_split : forall p l a b, span p l = (a, b) -> l = a ++ b.
Proof.
  intros p; induction l as [|c r IH]; intros a b H; simpl in H.
  - injection H as <- <-; reflexivity.
  - destruct (p c).
    + destruct (span p r) as [a' b'] eqn:E. injection H as <- <-.
      simpl; f_equal; now apply IH.
    + injection H as <- <-; reflexivity.
Qed.

Lemma span_all : forall p l a b, span p l = (a, b) -> Forall (fun c => p c = true) a.
Proof.
  intros p; induction l as [|c r IH]; intros a b H; simpl in H.
  - injection H as <- <-; constructor.
  - destruct (p c) eqn:Pc.
    + destruct (span p r) as [a' b'] eqn:E. injection H as <- <-.
      constructor; [exact Pc|]. eapply IH; eauto.
    + injection H as <- <-; constructor.
Qed.

Lemma match_at_no_digit : forall s, (forall c, In c s -> is_digit c = false) ->
  match_at s = None.
Proof.
  intros s Hs. unfold match_at.
  destruct (span is_wd_char s) as [w r1] eqn:E1.
  destruct (span is_digit r1) as [d r2] eqn:E2.
  apply span_split in E1 as Es. pose proof (span_all _ _ _ _ E2) as Hd.
  apply span_split in E2.
  destruct d as [|c d]; [destruct w; reflexivity|].
  inversion Hd as [|? ? Hc]; subst.
  rewrite (Hs c) in Hc; [discriminate|].
  apply in_or_app; right; simpl; auto.
Qed.

Lemma findall_no_digit : forall f s, (forall c, In c s -> is_digit c = false) ->
  findall_fuel f s = [].
Proof.
  induction f as [|f IH]; intros s Hs; [reflexivity|].
  destruct s as [|c s']; [reflexivity|].
  rewrite findall_fuel_skip by (apply match_at_no_digit; exact Hs).
  apply IH. intros x Hx; apply Hs; now right.
Qed.

Lemma split_on_incl : forall sep s part, In part (split_on sep s) ->
  forall c, In c part -> In c s.
Proof.
  intros sep; induction s as [|x s IH]; intros part Hp c Hc; simpl in Hp.
  - destruct Hp as [<-|[]]; contradiction.
  - destruct (x =? sep).
    + destruct Hp as [<-|Hp]; [contradiction|]. right; eapply IH; eauto.
    + destruct (split_on sep s) as [|p ps] eqn:E.
      * destruct Hp as [<-|[]]. destruct Hc as [<-|[]]; now left.
      * destruct Hp as [<-|Hp].
        -- destruct Hc as [<-|Hc]; [now left|]. right; eapply IH; [|exact Hc].
           now left.
        -- right; eapply IH; [|exact Hc]. now right.
Qed.

Lemma drop_while_incl : forall p l c, In c (drop_while p l) -> In c l.
Proof.
  intros p; induction l as [|x l IH]; intros c H; simpl in H; [contradiction|].
  destruct (p x); [right; auto|exact H].
Qed.

Lemma strip_by_incl : forall p l c, In c (strip_by p l) -> In c l.
Proof.
  intros p l c H. unfold strip_by in H.
  apply in_rev, drop_while_incl, in_rev, drop_while_incl in H. exact H.
Qed.

(** X4: a notation with no decimal digit in it (of any script) parses to
    no session. *)
Theorem parse_schedule_no_digit : forall x,
  (forall c, In c x -> is_digit c = false) -> parse_schedule x = Ok [].
Proof.
  intros x Hx. unfold parse_schedule.
  assert (H : forall parts, (forall p c, In p parts -> In c p -> In c x) ->
            parse_parts parts = Ok []).
  { induction parts as [|p ps IH]; intros Hin; [reflexivity|].
    cbn [parse_parts].
    unfold parse_single_schedule, findall.
    rewrite findall_no_digit.
    2:{ intros c Hc. apply Hx. apply (Hin p); [now left|].
        eapply strip_by_incl; exact Hc. }
    cbn [exc_bind]. rewrite IH; [reflexivity|].
    intros p' c Hp' Hc. apply (Hin p'); [now right|exact Hc]. }
  rewrite H; [reflexivity|].
  intros p c Hp Hc. eapply split_on_incl; eauto.
Qed.

Lemma parse_schedule_no_digit_witness :
  (forall c, In c (lit "Wed, Fri / TBA") -> is_digit c = false) /\
  parse_schedule (lit "Wed, Fri / TBA") = Ok [].
Proof.
  assert (H : forall c, In c (lit "Wed, Fri / TBA") -> is_digit c = false).
  { intros c Hc. simpl in Hc.
    repeat match goal with H : _ \/ _ |- _ => destruct H as [H|H] end;
      try contradiction; subst; reflexivity. }
  split; [exact H|]. exact (parse_schedule_no_digit _ H).
Defined.

(** A comma-free group of well-formed tokens is parsed as one part, from
    its [findall] matches. *)
Lemma parse_schedule_group : forall ts, Forall token_wf ts -> ts <> [] ->
  parse_schedule (group_str ts) =
    exc_bind (parse_single_schedule (group_str ts))
             (fun s => Ok (sort_stable session_key_lt (s ++ []))).
Proof.
  intros ts Hwf Hne.
  pose proof (group_chars _ Hwf) as Hch.
  assert (Hs : strip_ws (group_str ts) = group_str ts).
  { apply strip_ws_noop.
    - intros c r E. assert (Hc : group_char c) by (rewrite E in Hch; now inversion Hch).
      destruct Hc as [->|[Hc|Hc]];
        [reflexivity|now apply wd_not_space|now apply digit_not_space].
    - destruct (group_last_digit _ Hwf Hne) as (pre & c0 & E & Hc0).
      rewrite E, rev_app_distr. simpl. intros c r H; injection H as <- _.
      now apply digit_not_space. }
  unfold parse_schedule.
  rewrite split_on_no_sep.
  2:{ eapply Forall_impl; [|exact Hch]. intros c [->|[Hc|Hc]].
      - discriminate.
      - now apply wd_not_comma.
      - now apply digit_not_comma. }
  cbn [parse_parts]. rewrite Hs.
  destruct (parse_single_schedule (group_str ts)); reflexivity.
Qed.

Lemma findall_group_str : forall ts, Forall token_wf ts ->
  findall (group_str ts) = map token_match ts.
Proof. intros ts H. exact (findall_group _ _ H (le_n _)). Qed.

(** X5: when the weekday of a group's first token is not in the weekday
    table and that token's digit run has at most 4300 digits, the whole
    group gives no session, whatever the later tokens are; only the
    first token's digits are read before the group is given up. *)
Theorem parse_group_bad_weekday : forall t ts,
  Forall token_wf (t :: ts) ->
  Z.of_nat (List.length (tk_digits t)) <= int_max_str_digits ->
  dict_get pystr_eqb (tk_wd t) WEEKDAY_MAP = None ->
  parse_schedule (group_str (t :: ts)) = Ok [].
Proof.
  intros t ts Hwf Hl Hw.
  assert (Hp : py_int (tk_digits t) = Ok (token_period t)).
  { inversion Hwf as [|? ? (_ & _ & Hd0 & Hd) _]; subst. now apply py_int_digits. }
  rewrite parse_schedule_group by (auto || discriminate).
  unfold parse_single_schedule. rewrite (findall_group_str _ Hwf).
  cbn [map token_match collect_periods]. rewrite Hp. cbn [exc_bind].
  rewrite Hw. reflexivity.
Qed.

Lemma parse_group_bad_weekday_witness :
  Forall token_wf [xyz_token_9; wed_token_10] /\
  Z.of_nat (List.length (tk_digits xyz_token_9)) <= int_max_str_digits /\
  dict_get pystr_eqb (tk_wd xyz_token_9) WEEKDAY_MAP = None /\
  parse_schedule (group_str [xyz_token_9; wed_token_10]) = Ok [].
Proof.
  assert (Hwf : Forall token_wf [xyz_token_9; wed_token_10]).
  { repeat constructor; simpl; try discriminate; reflexivity. }
  assert (Hl : Z.of_nat (List.length (tk_digits xyz_token_9)) <= int_max_str_digits)
    by (vm_compute; discriminate).
  assert (Hw : dict_get pystr_eqb (tk_wd xyz_token_9) WEEKDAY_MAP = None) by reflexivity.
  split; [exact Hwf|]. split; [exact Hl|]. split; [exact Hw|].
  exact (parse_group_bad_weekday _ _ Hwf Hl Hw).
Defined.

Lemma get_period_none : forall p, p < 1 \/ 14 < p -> get_period_time p = None.
Proof.
  intros p Hp. destruct (get_period_time p) as [[st et]|] eqn:E; [|reflexivity].
  apply period_table_entry in E. lia.
Qed.

(** X6: a group of well-formed tokens, each with a digit run of at most
    4300 digits, whose least period is below 1 or whose greatest period
    is above 14 gives no session: periods are not clamped to the
    table. *)
Theorem parse_group_period_out_of_range : forall t ts,
  Forall token_wf (t :: ts) ->
  Forall (fun tk => Z.of_nat (List.length (tk_digits tk)) <= int_max_str_digits) (t :: ts) ->
  list_min (map token_period (t :: ts)) < 1 \/ 14 < list_max (map token_period (t :: ts)) ->
  parse_schedule (group_str (t :: ts)) = Ok [].
Proof.
  intros t ts Hwf Hlen Hout.
  pose proof (tokens_periods _ Hwf Hlen) as Hps.
  change (map token_period (t :: ts)) with (token_period t :: map token_period ts) in *.
  rewrite parse_schedule_group by (auto || discriminate).
  unfold parse_single_schedule. rewrite (findall_group_str _ Hwf).
  inversion Hps as [|? ? ? ? Hp Hps']; subst.
  cbn [map token_match collect_periods]. rewrite Hp. cbn [exc_bind].
  destruct (dict_get pystr_eqb (tk_wd t) WEEKDAY_MAP) as [w|]; [|reflexivity].
  rewrite (collect_tokens _ _ _ _ Hps'). cbn [exc_bind app].
  destruct Hout as [Hout|Hout].
  - rewrite (get_period_none _ (or_introl Hout)). reflexivity.
  - rewrite (get_period_none _ (or_intror Hout)).
    destruct (get_period_time (list_min (token_period t :: map token_period ts))) as [[]|];
      reflexivity.
Qed.

Lemma parse_group_period_out_of_range_witness :
  Forall token_wf [wed_token_9; wed_token_15] /\
  Forall (fun tk => Z.of_nat (List.length (tk_digits tk)) <= int_max_str_digits)
    [wed_token_9; wed_token_15] /\
  (list_min (map token_period [wed_token_9; wed_token_15]) < 1 \/
   14 < list_max (map token_period [wed_token_9; wed_token_15])) /\
  parse_schedule (group_str [wed_token_9; wed_token_15]) = Ok [].
Proof.
  assert (Hwf : Forall token_wf [wed_token_9; wed_token_15]).
  { repeat constructor; simpl; try discriminate; reflexivity. }
  assert (Hl : Forall (fun tk => Z.of_nat (List.length (tk_digits tk)) <= int_max_str_digits)
                 [wed_token_9; wed_token_15]) by (repeat constructor; vm_compute; discriminate).
  assert (Ho : list_min (map token_period [wed_token_9; wed_token_15]) < 1 \/
               14 < list_max (map token_period [wed_token_9; wed_token_15]))
    by (right; vm_compute; reflexivity).
  split; [exact Hwf|]. split; [exact Hl|]. split; [exact Ho|].
  exact (parse_group_period_out_of_range _ _ Hwf Hl Ho).
Defined.

(** ** Date expander: completeness, order, overflow *)

Lemma day_occurrences_in : forall cur E ss s, In s ss ->
  dt_weekday cur = weekday s -> existsb (dt_eqb cur) E = false ->
  In (mk_occ cur s) (day_occurrences cur E ss).
Proof.
  intros cur E ss s; induction ss as [|s' ss IH]; simpl; [tauto|].
  intros [<-|Hin] W X.
  - rewrite W, Z.eqb_refl, X. now left.
  - destruct (dt_weekday cur =? weekday s');
      [destruct (existsb (dt_eqb cur) E); simpl; [|right]|]; auto.
Qed.

Lemma date_loop_complete : forall fuel en cur ss E occs k s,
  date_loop fuel en cur ss E = Ok occs ->
  dt_ord cur <= k -> k - dt_ord cur < Z.of_nat fuel ->
  dt_leb {| dt_ord := k; dt_tod := dt_tod cur |} en = true ->
  In s ss -> dt_weekday {| dt_ord := k; dt_tod := dt_tod cur |} = weekday s ->
  existsb (dt_eqb {| dt_ord := k; dt_tod := dt_tod cur |}) E = false ->
  In (mk_occ {| dt_ord := k; dt_tod := dt_tod cur |} s) occs.
Proof.
  induction fuel as [|f IH]; intros en cur ss E occs k s H Hk Hf Hle Hs W X; [lia|].
  cbn [date_loop] in H.
  assert (Hce : dt_leb cur en = true).
  { eapply dt_le_trans; [|exact Hle].
    destruct cur as [co ct]; unfold dt_leb, dt_ltb, dt_eqb; simpl in *; zcases. }
  rewrite Hce in H.
  destruct (add_days cur 1) as [next|e] eqn:Hn; [|discriminate]. cbn [exc_bind] in H.
  destruct (date_loop f en next ss E) as [rest|e] eqn:Hr; [|discriminate].
  injection H as <-. apply in_or_app.
  destruct (Z.eq_dec k (dt_ord cur)) as [->|Hne].
  - left. destruct cur as [co ct]. simpl in *. apply day_occurrences_in; auto.
  - right. apply add_days_ok in Hn as [Ho Ht]. rewrite <- Ht in *.
    apply (IH en next ss E rest k s Hr); auto; lia.
Qed.

(** X7: every class day in the semester is listed: for each session and
    each date of the registered window (at the start date's time of day)
    falling on the session's weekday and not excluded, [get_class_dates]
    returns that session's occurrence on that date. *)
Theorem class_dates_complete : forall db sessions y s E sem occs k ses,
  get_semester_info db y s = Some sem ->
  get_class_dates db sessions y s E = Ok occs ->
  dt_leb (start_date sem) {| dt_ord := k; dt_tod := dt_tod (start_date sem) |} = true ->
  dt_leb {| dt_ord := k; dt_tod := dt_tod (start_date sem) |} (end_date sem) = true ->
  In ses sessions ->
  dt_weekday {| dt_ord := k; dt_tod := dt_tod (start_date sem) |} = weekday ses ->
  existsb (dt_eqb {| dt_ord := k; dt_tod := dt_tod (start_date sem) |}) E = false ->
  In (mk_occ {| dt_ord := k; dt_tod := dt_tod (start_date sem) |} ses) occs.
Proof.
  intros db sessions y s E sem occs k ses Hsem H H1 H2 Hs W X.
  unfold get_class_dates in H; rewrite Hsem in H.
  pose proof (dt_leb_ord _ _ H1) as O1; pose proof (dt_leb_ord _ _ H2) as O2.
  simpl in O1, O2.
  apply (date_loop_complete _ _ _ _ _ _ k ses H); auto.
  rewrite Z2Nat.id by lia. lia.
Qed.

Lemma class_dates_complete_witness :
  exists occs,
    get_semester_info SEMESTER_DATABASE 114 1 = Some sem_114_1 /\
    get_class_dates SEMESTER_DATABASE [wed_session] 114 1 [] = Ok occs /\
    In (mk_occ {| dt_ord := ymd2ord 2025 12 3; dt_tod := 0 |} wed_session) occs.
Proof.
  destruct (get_class_dates SEMESTER_DATABASE [wed_session] 114 1 []) as [occs|e] eqn:H.
  - assert (Hsem : get_semester_info SEMESTER_DATABASE 114 1 = Some sem_114_1)
      by reflexivity.
    exists occs; split; [exact Hsem|]; split; [reflexivity|].
    apply (class_dates_complete SEMESTER_DATABASE [wed_session] 114 1 [] sem_114_1 occs
             (ymd2ord 2025 12 3) wed_session Hsem H).
    + vm_compute; reflexivity.
    + vm_compute; reflexivity.
    + now left.
    + vm_compute; reflexivity.
    + reflexivity.
  - vm_compute in H; discriminate H.
Defined.

Lemma StronglySorted_app {A : Type} (R : A -> A -> Prop) : forall l1 l2,
  StronglySorted R l1 -> StronglySorted R l2 ->
  (forall x y, In x l1 -> In y l2 -> R x y) -> StronglySorted R (l1 ++ l2).
Proof.
  intros l1 l2 H1; induction H1 as [|x l1 Hl1 IH Hall]; intros H2 Hx; [exact H2|].
  simpl; constructor.
  - apply IH; [exact H2|]. intros a b Ha Hb; apply Hx; [now right|exact Hb].
  - apply Forall_app; split; [exact Hall|].
    apply Forall_forall; intros y Hy; apply Hx; [now left|exact Hy].
Qed.

Lemma dt_leb_refl : forall a, dt_leb a a = true.
Proof. intros a; unfold dt_leb; now rewrite dt_eqb_refl, orb_true_r. Qed.

Lemma date_loop_sorted : forall fuel en cur ss E occs,
  date_loop fuel en cur ss E = Ok occs ->
  StronglySorted (fun a b => dt_leb (oc_date a) (oc_date b) = true) occs.
Proof.
  induction fuel as [|f IH]; intros en cur ss E occs H; cbn [date_loop] in H.
  - injection H as <-; constructor.
  - destruct (dt_leb cur en) eqn:Hce; [|injection H as <-; constructor].
    destruct (add_days cur 1) as [next|e] eqn:Hn; [|discriminate]. cbn [exc_bind] in H.
    destruct (date_loop f en next ss E) as [rest|e] eqn:Hr; [|discriminate].
    injection H as <-.
    assert (Hhere : forall o, In o (day_occurrences cur E ss) -> oc_date o = cur)
      by (intros o Ho; exact (proj1 (day_occurrences_spec _ _ _ _ Ho))).
    apply StronglySorted_app.
    + clear Hr. induction (day_occurrences cur E ss) as [|x l IHl]; constructor.
      * apply IHl; intros o Ho; apply Hhere; now right.
      * apply Forall_forall; intros y Hy.
        rewrite (Hhere x (or_introl eq_refl)), (Hhere y (or_intror Hy)).
        apply dt_leb_refl.
    + exact (IH _ _ _ _ _ Hr).
    + intros x y Hx Hy. rewrite (Hhere x Hx).
      destruct (date_loop_window _ next _ _ _ _ _ (dt_leb_refl next) Hr y Hy) as [Hy1 _].
      apply dt_lt_le. eapply dt_lt_le_trans; [|exact Hy1].
      apply add_days_ok in Hn as [Ho Ht].
      destruct cur as [co ct], next as [no nt]; simpl in *; subst.
      unfold dt_ltb; simpl; zcases.
Qed.

(** X8: [get_class_dates] lists its occurrences in chronological order
    of their dates. *)
Theorem class_dates_sorted : forall db sessions y s E occs,
  get_class_dates db sessions y s E = Ok occs ->
  StronglySorted (fun a b => dt_leb (oc_date a) (oc_date b) = true) occs.
Proof.
  intros db sessions y s E occs H. unfold get_class_dates in H.
  destruct (get_semester_info db y s) as [sem|].
  - eapply date_loop_sorted; exact H.
  - injection H as <-; constructor.
Qed.

Lemma class_dates_sorted_witness :
  exists occs,
    get_class_dates SEMESTER_DATABASE [wed_session; fri_session_4] 114 1 [] = Ok occs /\
    StronglySorted (fun a b => dt_leb (oc_date a) (oc_date b) = true) occs.
Proof.
  destruct (get_class_dates SEMESTER_DATABASE [wed_session; fri_session_4] 114 1 [])
    as [occs|e] eqn:H.
  - exists occs; split; [reflexivity|]. exact (class_dates_sorted _ _ _ _ _ _ H).
  - vm_compute in H; discriminate H.
Defined.

Lemma key_eqb_eq : forall a b, key_eqb a b = true <-> a = b.
Proof.
  intros [a1 a2] [b1 b2]; unfold key_eqb; simpl; split.
  - intros H; apply andb_prop in H as [H1 H2]; apply Z.eqb_eq in H1, H2; now subst.
  - intros H; injection H as -> ->; now rewrite !Z.eqb_refl.
Qed.

Lemma key_eqb_sym : forall a b, key_eqb a b = key_eqb b a.
Proof.
  intros a b. destruct (key_eqb a b) eqn:E, (key_eqb b a) eqn:F; auto.
  - apply key_eqb_eq in E; subst. now rewrite (proj2 (key_eqb_eq b b) eq_refl) in F.
  - apply key_eqb_eq in F; subst. now rewrite (proj2 (key_eqb_eq a a) eq_refl) in E.
Qed.

Lemma dict_get_set {V : Type} : forall (d : list ((Z * Z) * V)) k v k',
  dict_get key_eqb k' (dict_set key_eqb k v d) =
    if key_eqb k' k then Some v else dict_get key_eqb k' d.
Proof.
  induction d as [|[k0 v0] d IH]; intros k v k'; simpl.
  - destruct (key_eqb k' k); reflexivity.
  - destruct (key_eqb k k0) eqn:E; simpl.
    + apply key_eqb_eq in E; subst k0. destruct (key_eqb k' k); reflexivity.
    + rewrite IH. destruct (key_eqb k' k0) eqn:F; [|reflexivity].
      apply key_eqb_eq in F; subst k0.
      rewrite key_eqb_sym, E. reflexivity.
Qed.

Lemma get_semester_update : forall db y s st en y' s',
  get_semester_info (update_semester_info db y s st en) y' s' =
    if (y' =? y) && (s' =? s)
    then Some {| year := y; semester := s; start_date := st; end_date := en |}
    else get_semester_info db y' s'.
Proof.
  intros. unfold get_semester_info, update_semester_info.
  rewrite dict_get_set. reflexivity.
Qed.

(** X9: [update_semester_info] followed by [get_semester_info]: the
    updated key gives the new semester, every other key what it gave
    before. *)
Theorem semester_update_lookup : forall db y s st en y' s',
  get_semester_info (update_semester_info db y s st en) y' s' =
    if (y' =? y) && (s' =? s)
    then Some {| year := y; semester := s; start_date := st; end_date := en |}
    else get_semester_info db y' s'.
Proof. exact get_semester_update. Qed.

Lemma date_loop_overflow : forall fuel en cur ss E,
  dt_ord en = MAXORDINAL -> dt_ord cur <= MAXORDINAL -> dt_tod cur <= dt_tod en ->
  MAXORDINAL - dt_ord cur < Z.of_nat fuel ->
  date_loop fuel en cur ss E = Raise OverflowError.
Proof.
  induction fuel as [|f IH]; intros en cur ss E He Hc Ht Hf; [lia|].
  cbn [date_loop].
  assert (Hce : dt_leb cur en = true).
  { unfold dt_leb, dt_ltb, dt_eqb. rewrite He.
    destruct (Z.ltb_spec (dt_ord cur) MAXORDINAL) as [L|L]; [reflexivity|].
    rewrite (proj2 (Z.eqb_eq (dt_ord cur) MAXORDINAL)) by lia.
    destruct (Z.ltb_spec (dt_tod cur) (dt_tod en)) as [T|T]; [reflexivity|].
    rewrite (proj2 (Z.eqb_eq (dt_tod cur) (dt_tod en))) by lia. reflexivity. }
  rewrite Hce.
  unfold add_days.
  destruct ((dt_ord cur + 1 <? 1) || (MAXORDINAL <? dt_ord cur + 1)) eqn:C;
    cbn [exc_bind]; [reflexivity|].
  apply orb_false_iff in C as [C1 C2]. apply Z.ltb_ge in C1, C2.
  rewrite (IH en {| dt_ord := dt_ord cur + 1; dt_tod := dt_tod cur |} ss E He);
    cbn [dt_ord dt_tod]; [reflexivity|lia|lia|lia].
Qed.

(** X10: a semester registered with end date 9999-12-31 (the last
    [datetime] day) and a start date on or before that day whose time of
    day is not later than the end's makes [get_class_dates] raise
    [OverflowError]: the loop reaches the last day and adds one day to
    it before testing the bound. *)
Theorem class_dates_overflow_at_max : forall db sessions y s st en E,
  dt_ord en = MAXORDINAL -> dt_ord st <= dt_ord en -> dt_tod st <= dt_tod en ->
  get_class_dates (update_semester_info db y s st en) sessions y s E = Raise OverflowError.
Proof.
  intros db sessions y s st en E He Hse Ht.
  unfold get_class_dates. rewrite get_semester_update, !Z.eqb_refl. simpl.
  apply date_loop_overflow; auto; [lia|].
  rewrite Z2Nat.id by lia. lia.
Qed.

Lemma class_dates_overflow_at_max_witness :
  dt_ord (mk_dt 9999 12 31) = MAXORDINAL /\
  get_class_dates (update_semester_info SEMESTER_DATABASE 116 1 (mk_dt 9999 9 1) (mk_dt 9999 12 31))
    [wed_session] 116 1 [] = Raise OverflowError.
Proof.
  assert (He : dt_ord (mk_dt 9999 12 31) = MAXORDINAL) by (vm_compute; reflexivity).
  split; [exact He|].
  apply class_dates_overflow_at_max; [exact He| |].
  - apply Z.leb_le; vm_compute; reflexivity.
  - simpl; lia.
Defined.

(** ** Calendar import *)

Lemma dict_get_app {V : Type} : forall (a b : list ((Z * Z) * V)) k,
  dict_get key_eqb k (a ++ b) =
    match dict_get key_eqb k a with Some v => Some v | None => dict_get key_eqb k b end.
Proof.
  induction a as [|[k0 v0] a IH]; intros b k; simpl; [reflexivity|].
  destruct (key_eqb k k0); [reflexivity|apply IH].
Qed.

Lemma dict_get_notin {V : Type} : forall (d : list ((Z * Z) * V)) k,
  ~ In k (map fst d) -> dict_get key_eqb k d = None.
Proof.
  induction d as [|[k0 v0] d IH]; intros k Hn; simpl; [reflexivity|].
  destruct (key_eqb k k0) eqn:E.
  - apply key_eqb_eq in E; subst. exfalso; apply Hn; now left.
  - apply IH. intros H; apply Hn; now right.
Qed.

Lemma dict_set_fresh {V : Type} : forall (d : list ((Z * Z) * V)) k v,
  dict_get key_eqb k d = None -> dict_set key_eqb k v d = d ++ [(k, v)].
Proof.
  induction d as [|[k0 v0] d IH]; intros k v H; simpl in *; [reflexivity|].
  rewrite key_eqb_sym. destruct (key_eqb k0 k) eqn:E; rewrite key_eqb_sym, E in H;
    [discriminate H|]. now rewrite IH.
Qed.

Lemma dict_set_keys {V : Type} : forall (d : list ((Z * Z) * V)) k v key,
  In key (map fst (dict_set key_eqb k v d)) -> key = k \/ In key (map fst d).
Proof.
  induction d as [|[k0 v0] d IH]; intros k v key H; simpl in *.
  - destruct H as [H|[]]; now left.
  - destruct (key_eqb k k0); simpl in H; destruct H as [H|H]; auto.
    destruct (IH _ _ _ H); auto.
Qed.

Lemma dict_set_nodup {V : Type} : forall (d : list ((Z * Z) * V)) k v,
  NoDup (map fst d) -> NoDup (map fst (dict_set key_eqb k v d)).
Proof.
  induction d as [|[k0 v0] d IH]; intros k v H; simpl in *.
  - repeat constructor; simpl; tauto.
  - inversion H as [|? ? Hn Hd]; subst.
    destruct (key_eqb k k0) eqn:E; simpl; constructor; auto.
    intros Hin. destruct (dict_set_keys _ _ _ _ Hin) as [->|Hin'].
    + now rewrite (proj2 (key_eqb_eq k k) eq_refl) in E.
    + contradiction.
Qed.

Lemma validate_fold : forall sems acc,
  NoDup (map fst sems) ->
  (forall k, In k (map fst sems) -> dict_get key_eqb k acc = None) ->
  fold_left (fun valid_semesters kv =>
    match sd_start (snd kv), sd_end (snd kv) with
    | Some st, Some en =>
        if dt_ltb st en then dict_set key_eqb (fst kv) (snd kv) valid_semesters
        else valid_semesters
    | _, _ => valid_semesters
    end) sems acc = acc ++ List.filter (fun kv => valid_dates (snd kv)) sems.
Proof.
  induction sems as [|[k v] sems IH]; intros acc Hd Hf; simpl; [now rewrite app_nil_r|].
  inversion Hd as [|? ? Hn Hd']; subst.
  assert (Hk : dict_get key_eqb k acc = None) by (apply Hf; now left).
  unfold valid_dates.
  destruct (sd_start v) as [st|], (sd_end v) as [en|];
    [destruct (dt_ltb st en)| | |].
  - rewrite dict_set_fresh by exact Hk. rewrite IH; [now rewrite <- app_assoc|exact Hd'|].
    intros k' Hk'. rewrite dict_get_app, Hf by (now right). simpl.
    destruct (key_eqb k' k) eqn:E; [|reflexivity].
    apply key_eqb_eq in E; subst; contradiction.
  - apply IH; auto. intros k' Hk'; apply Hf; now right.
  - apply IH; auto. intros k' Hk'; apply Hf; now right.
  - apply IH; auto. intros k' Hk'; apply Hf; now right.
  - apply IH; auto. intros k' Hk'; apply Hf; now right.
Qed.

Lemma validate_filter : forall sems, NoDup (map fst sems) ->
  validate_semester_data sems = List.filter (fun kv => valid_dates (snd kv)) sems.
Proof.
  intros sems Hd. unfold validate_semester_data.
  rewrite validate_fold; auto.
Qed.

Lemma filter_nodup : forall (sems : list ((Z * Z) * SemDates)) f,
  NoDup (map fst sems) -> NoDup (map fst (List.filter f sems)).
Proof.
  induction sems as [|x sems IH]; intros f Hd; simpl; [constructor|].
  inversion Hd as [|? ? Hn Hd']; subst.
  destruct (f x); simpl; [constructor|]; auto.
  intros Hin; apply Hn. apply in_map_iff in Hin as (y & Hy & Hin).
  apply filter_In in Hin as [Hin _]. rewrite <- Hy; now apply in_map.
Qed.

Lemma dict_get_filter : forall sems k, NoDup (map fst sems) ->
  dict_get key_eqb k (List.filter (fun kv => valid_dates (snd kv)) sems) =
    match dict_get key_eqb k sems with
    | Some v => if valid_dates v then Some v else None
    | None => None
    end.
Proof.
  induction sems as [|[k0 v0] sems IH]; intros k Hd; simpl; [reflexivity|].
  inversion Hd as [|? ? Hn Hd']; subst.
  destruct (key_eqb k k0) eqn:E.
  - apply key_eqb_eq in E; subst.
    destruct (valid_dates v0); simpl;
      [now rewrite (proj2 (key_eqb_eq k0 k0) eq_refl)|].
    rewrite IH by exact Hd'. now rewrite dict_get_notin.
  - destruct (valid_dates v0); simpl; [rewrite E|]; apply IH; exact Hd'.
Qed.

Lemma apply_fold : forall L db y s,
  NoDup (map fst L) ->
  get_semester_info (fold_left (fun db kv =>
    match sd_start (snd kv), sd_end (snd kv) with
    | Some st, Some en => update_semester_info db (fst (fst kv)) (snd (fst kv)) st en
    | _, _ => db
    end) L db) y s =
  match dict_get key_eqb (y, s) L with
  | Some {| sd_start := Some st; sd_end := Some en |} =>
      Some {| year := y; semester := s; start_date := st; end_date := en |}
  | _ => get_semester_info db y s
  end.
Proof.
  induction L as [|[[k1 k2] v] L IH]; intros db y s Hd; simpl; [reflexivity|].
  inversion Hd as [|? ? Hn Hd']; subst.
  rewrite IH by exact Hd'.
  destruct (key_eqb (y, s) (k1, k2)) eqn:E.
  - apply key_eqb_eq in E; injection E as -> ->.
    rewrite dict_get_notin by exact Hn.
    destruct v as [[st|] [en|]]; simpl; try reflexivity.
    rewrite get_semester_update, !Z.eqb_refl. reflexivity.
  - assert (Hu : forall st en, get_semester_info (update_semester_info db k1 k2 st en) y s =
                               get_semester_info db y s).
    { intros st en; rewrite get_semester_update.
      change ((y =? k1) && (s =? k2)) with (key_eqb (y, s) (k1, k2)). now rewrite E. }
    destruct v as [[st|] [en|]]; simpl;
      destruct (dict_get key_eqb (y, s) L) as [[[?|] [?|]]|]; rewrite ?Hu; reflexivity.
Qed.

Lemma apply_semesters_get : forall db sems y s,
  NoDup (map fst sems) ->
  get_semester_info (apply_semesters_to_config db sems) y s =
    match dict_get key_eqb (y, s) sems with
    | Some {| sd_start := Some st; sd_end := Some en |} =>
        if dt_ltb st en
        then Some {| year := y; semester := s; start_date := st; end_date := en |}
        else get_semester_info db y s
    | _ => get_semester_info db y s
    end.
Proof.
  intros db sems y s Hd. unfold apply_semesters_to_config.
  rewrite validate_filter by exact Hd.
  rewrite apply_fold by (apply filter_nodup; exact Hd).
  rewrite dict_get_filter by exact Hd.
  destruct (dict_get key_eqb (y, s) sems) as [[[st|] [en|]]|]; unfold valid_dates; simpl;
    try reflexivity.
  destruct (dt_ltb st en); reflexivity.
Qed.

(** X11: [apply_semesters_to_config] registers exactly the calendar
    entries with both dates and [start < end]: looking up a semester
    afterwards gives the calendar's dates for such an entry and the
    previous registry entry otherwise. *)
Theorem apply_semesters_lookup : forall db sems y s,
  NoDup (map fst sems) ->
  get_semester_info (apply_semesters_to_config db sems) y s =
    match dict_get key_eqb (y, s) sems with
    | Some {| sd_start := Some st; sd_end := Some en |} =>
        if dt_ltb st en
        then Some {| year := y; semester := s; start_date := st; end_date := en |}
        else get_semester_info db y s
    | _ => get_semester_info db y s
    end.
Proof. exact apply_semesters_get. Qed.

Lemma apply_semesters_lookup_witness :
  NoDup (map fst [((116, 1), {| sd_start := Some (mk_dt 2027 9 1);
                                sd_end := Some (mk_dt 2028 1 31) |});
                  ((116, 2), {| sd_start := Some (mk_dt 2028 2 20); sd_end := None |})]) /\
  get_semester_info (apply_semesters_to_config SEMESTER_DATABASE
    [((116, 1), {| sd_start := Some (mk_dt 2027 9 1); sd_end := Some (mk_dt 2028 1 31) |});
     ((116, 2), {| sd_start := Some (mk_dt 2028 2 20); sd_end := None |})]) 116 1 =
  Some {| year := 116; semester := 1; start_date := mk_dt 2027 9 1;
          end_date := mk_dt 2028 1 31 |}.
Proof.
  assert (Hd : NoDup (map fst [((116, 1), {| sd_start := Some (mk_dt 2027 9 1);
                                sd_end := Some (mk_dt 2028 1 31) |});
                  ((116, 2), {| sd_start := Some (mk_dt 2028 2 20); sd_end := None |})])).
  { simpl. constructor; [simpl; intros [H|[]]; discriminate H|].
    constructor; [simpl; tauto|constructor]. }
  split; [exact Hd|].
  rewrite (apply_semesters_lookup _ _ 116 1 Hd). vm_compute. reflexivity.
Defined.

Lemma store_lookup : forall sems y s date is_start k,
  dict_get key_eqb k (store_semester_date sems y s date is_start) =
    if key_eqb k (y, s)
    then Some (let cur := match dict_get key_eqb (y, s) sems with
                          | Some v => v | None => empty_dates end in
               if is_start then {| sd_start := Some date; sd_end := sd_end cur |}
               else {| sd_start := sd_start cur; sd_end := Some date |})
    else dict_get key_eqb k sems.
Proof. intros. unfold store_semester_date. apply dict_get_set. Qed.

Lemma store_nodup : forall sems y s date is_start,
  NoDup (map fst sems) -> NoDup (map fst (store_semester_date sems y s date is_start)).
Proof. intros. unfold store_semester_date. now apply dict_set_nodup. Qed.

(** X12: storing a start date and then an end date for a semester and
    applying the result registers that semester with these dates when
    [start < end], and leaves its registry entry unchanged otherwise,
    whatever the calendar held for it before. *)
Theorem store_then_apply : forall db sems y s st en,
  NoDup (map fst sems) ->
  get_semester_info
    (apply_semesters_to_config db
       (store_semester_date (store_semester_date sems y s st true) y s en false)) y s =
    if dt_ltb st en
    then Some {| year := y; semester := s; start_date := st; end_date := en |}
    else get_semester_info db y s.
Proof.
  intros db sems y s st en Hd.
  rewrite apply_semesters_get by (now apply store_nodup, store_nodup).
  rewrite store_lookup.
  assert (Hk : key_eqb (y, s) (y, s) = true) by (apply key_eqb_eq; reflexivity).
  rewrite Hk, store_lookup, Hk. reflexivity.
Qed.

Lemma store_then_apply_witness :
  NoDup (map fst (@nil ((Z * Z) * SemDates))) /\
  get_semester_info
    (apply_semesters_to_config SEMESTER_DATABASE
       (store_semester_date (store_semester_date [] 114 1 (mk_dt 2026 1 31) true)
          114 1 (mk_dt 2025 9 1) false)) 114 1 =
  get_semester_info SEMESTER_DATABASE 114 1.
Proof.
  assert (Hd : NoDup (map fst (@nil ((Z * Z) * SemDates)))) by constructor.
  split; [exact Hd|].
  rewrite (store_then_apply _ _ 114 1 (mk_dt 2026 1 31) (mk_dt 2025 9 1) Hd).
  vm_compute. reflexivity.
Defined.

(** ** Merger: order of the teaching blocks *)

Lemma groupby_keys_sorted : forall s, StronglySorted (not_after occ_key_lt) s ->
  StronglySorted (fun g1 g2 => dt_ltb (fst g1) (fst g2) = true) (groupby_date s).
Proof.
  induction s as [|x xs IH]; intros Hs; [constructor|].
  pose proof Hs as Hs'. apply StronglySorted_inv in Hs as [Hxs _].
  specialize (IH Hxs). cbn [groupby_date].
  destruct (groupby_date xs) as [|[k g] rest] eqn:G; [repeat constructor|].
  destruct (dt_eqb (oc_date x) k) eqn:E.
  - apply dt_eqb_eq in E. rewrite E.
    apply StronglySorted_inv in IH as [IHr IHall]. constructor; assumption.
  - constructor; [exact IH|].
    assert (Hg : groupby_date (x :: xs) = (oc_date x, [x]) :: (k, g) :: rest)
      by (simpl; rewrite G, E; reflexivity).
    apply Forall_forall; intros [k' g'] Hin; simpl.
    exact (groupby_rest_later _ _ _ _ Hs' Hg k' g' Hin).
Qed.

Lemma index_groups_member : forall anchor G b, In b (index_groups anchor G) ->
  exists g, In (tb_date b, g) G /\ tb_week b = week_of anchor (tb_date b).
Proof.
  intros anchor G; induction G as [|[k [|o g]] rest IH]; simpl; intros b Hb;
    [contradiction| |].
  - destruct (IH b Hb) as (g' & H1 & H2); eauto.
  - destruct Hb as [<-|Hb]; simpl; [eauto|].
    destruct (IH b Hb) as (g' & H1 & H2); eauto.
Qed.

Lemma week_of_mono : forall anchor d1 d2, dt_ord d1 <= dt_ord d2 ->
  week_of anchor d1 <= week_of anchor d2.
Proof.
  intros anchor d1 d2 H; unfold week_of.
  apply Z.add_le_mono_r, Z.div_le_mono; lia.
Qed.

Lemma index_groups_sorted : forall anchor G,
  StronglySorted (fun g1 g2 => dt_ltb (fst g1) (fst g2) = true) G ->
  StronglySorted (fun a b => dt_ltb (tb_date a) (tb_date b) = true /\ tb_week a <= tb_week b)
    (index_groups anchor G).
Proof.
  intros anchor G H; induction H as [|[k g] rest Hr IH Hall]; [constructor|].
  destruct g as [|o g]; simpl; [exact IH|].
  constructor; [exact IH|].
  apply Forall_forall; intros b Hb; simpl.
  destruct (index_groups_member _ _ _ Hb) as (g' & Hin & Hw).
  rewrite Forall_forall in Hall. specialize (Hall _ Hin); simpl in Hall.
  split; [exact Hall|]. rewrite Hw.
  apply week_of_mono, dt_leb_ord, dt_lt_le, Hall.
Qed.

(** X13: [merge_class_dates] emits its teaching blocks in strictly
    increasing date order (so at most one block per day), with
    non-decreasing week numbers. *)
Theorem merge_blocks_increasing : forall class_dates,
  StronglySorted (fun a b => dt_ltb (tb_date a) (tb_date b) = true /\ tb_week a <= tb_week b)
    (merge_class_dates class_dates).
Proof.
  intros l. unfold merge_class_dates.
  pose proof (sort_occ_sorted l) as H.
  destruct (sort_stable occ_key_lt l) as [|o os]; [constructor|].
  rewrite emit_blocks_filter. apply StronglySorted_filter.
  apply index_groups_sorted, groupby_keys_sorted, H.
Qed.

(** ** Course row interpreter *)

Lemma digits_value_app : forall a l1 l2,
  digits_value a (l1 ++ l2) = digits_value (digits_value a l1) l2.
Proof. intros a l1; revert a; induction l1 as [|c l1 IH]; intros a l2; simpl; auto. Qed.

Lemma dec_digits_spec : forall fuel n acc, 0 <= n < Z.of_nat fuel ->
  exists ds, dec_digits fuel n acc = ds ++ acc /\ ds <> [] /\
    Forall (fun c => is_ascii_digit c = true) ds /\ digits_value 0 ds = n /\
    10 ^ Z.of_nat (List.length ds) <= 10 * Z.max n 1.
Proof.
  induction fuel as [|f IH]; intros n acc Hn; [lia|].
  cbn [dec_digits].
  assert (Hd : is_ascii_digit (48 + n mod 10) = true).
  { pose proof (Z.mod_pos_bound n 10 ltac:(lia)).
    unfold is_ascii_digit; apply andb_true_intro; split; apply Z.leb_le; lia. }
  destruct (Z.ltb_spec n 10) as [Hlt|Hge].
  - exists [48 + n mod 10]. repeat split; auto; [discriminate| |].
    + cbn [digits_value]. rewrite Z.mod_small by lia. lia.
    + cbn [List.length Z.of_nat]. rewrite Z.pow_1_r. lia.
  - destruct (IH (n / 10) (48 + n mod 10 :: acc)) as (ds & E & Hne & Hall & Hv & Hl).
    { split; [apply Z.div_pos; lia|].
      assert (n / 10 < n) by (apply Z.div_lt; lia). lia. }
    exists (ds ++ [48 + n mod 10]). rewrite <- app_assoc. split; [exact E|].
    split; [destruct ds; [contradiction|discriminate]|].
    split; [apply Forall_app; split; auto|].
    split.
    + rewrite digits_value_app, Hv. cbn [digits_value].
      pose proof (Z.div_mod n 10 ltac:(lia)). lia.
    + rewrite length_app, Nat2Z.inj_add, Z.pow_add_r by lia.
      cbn [List.length Z.of_nat]. rewrite Z.pow_1_r.
      assert (H1 : 1 <= n / 10) by (apply Z.div_le_lower_bound; lia).
      rewrite Z.max_l in Hl by lia. rewrite Z.max_l by lia.
      pose proof (Z.mul_div_le n 10 ltac:(lia)). lia.
Qed.

Lemma dec_spec : forall n, 0 <= n ->
  exists ds, dec n = ds /\ ds <> [] /\ Forall (fun c => is_ascii_digit c = true) ds /\
    digits_value 0 ds = n /\ 10 ^ Z.of_nat (List.length ds) <= 10 * Z.max n 1.
Proof.
  intros n Hn. unfold dec.
  destruct (dec_digits_spec (S (Z.to_nat n)) n [] ltac:(lia)) as (ds & E & H).
  rewrite app_nil_r in E. eauto.
Qed.

Lemma int_text_ascii : forall ds, Forall (fun c => is_ascii_digit c = true) ds ->
  int_text ds = ds.
Proof.
  intros ds H. unfold int_text.
  replace (forallb (fun c => c <? 128) ds) with true; [reflexivity|].
  symmetry. apply forallb_forall. intros c Hc. rewrite Forall_forall in H.
  specialize (H c Hc). apply andb_prop in H as [_ H]. apply Z.leb_le in H.
  apply Z.ltb_lt. lia.
Qed.

Lemma py_int_dec : forall n, 0 <= n < 10 ^ 4300 -> py_int (dec n) = Ok n.
Proof.
  intros n Hn.
  destruct (dec_spec n ltac:(lia)) as (ds & -> & Hne & Hall & Hv & Hl).
  rewrite <- Hv. apply py_int_ascii_digits; auto; [now apply int_text_ascii|].
  unfold int_max_str_digits.
  assert (HP : 1 < 10 ^ 4300) by (apply Z.pow_gt_1; lia).
  assert (HP' : 10 ^ 4301 = 10 * 10 ^ 4300) by (rewrite <- Z.pow_succ_r; [reflexivity|lia]).
  generalize dependent (10 ^ 4300). intros P Hn HP HP'.
  assert (10 ^ Z.of_nat (List.length ds) < 10 ^ 4301) by (rewrite HP'; lia).
  apply Z.pow_lt_mono_r_iff in H; lia.
Qed.

Lemma digits_no_slash : forall ds, Forall (fun c => is_ascii_digit c = true) ds ->
  Forall (fun c => c <> slash) ds.
Proof.
  intros ds; apply Forall_impl. intros c Hc.
  unfold is_ascii_digit in Hc; apply andb_prop in Hc as [H1 H2]; apply Z.leb_le in H1, H2.
  unfold slash; lia.
Qed.

Lemma split_on_app_sep : forall sep a b, Forall (fun c => c <> sep) a ->
  split_on sep (a ++ sep :: b) = a :: split_on sep b.
Proof.
  intros sep a b H; induction H as [|c a Hc H IH]; simpl.
  - now rewrite Z.eqb_refl.
  - destruct (Z.eqb_spec c sep); [contradiction|]. now rewrite IH.
Qed.

Lemma parse_credits_nonempty : forall cs, cs <> [] ->
  parse_credits (Some cs) =
    let parts := split_on slash cs in
    match py_int (nth 0 parts []) with
    | Raise _ => (None, None)
    | Ok h =>
        match parts with
        | _ :: p1 :: _ =>
            match py_int p1 with
            | Ok c => (Some h, Some c)
            | Raise _ => (Some h, None)
            end
        | _ => (Some h, None)
        end
    end.
Proof. intros [|c cs] H; [contradiction|reflexivity]. Qed.

(** X14: [parse_credits] reads back the hours and credits written as
    ["<h>/<c>"] or ["<h>"]; when the part after the slash is not an
    integer, the hours are kept and the credits are [None]. *)
Theorem parse_credits_roundtrip : forall h c x,
  0 <= h < 10 ^ 4300 -> 0 <= c < 10 ^ 4300 ->
  Forall (fun ch => ch <> slash) x -> (exists e, py_int x = Raise e) ->
  parse_credits (Some (dec h ++ slash :: dec c)) = (Some h, Some c) /\
  parse_credits (Some (dec h)) = (Some h, None) /\
  parse_credits (Some (dec h ++ slash :: x)) = (Some h, None).
Proof.
  intros h c x Hh Hc Hx [e He].
  destruct (dec_spec h ltac:(lia)) as (dh & Eh & Hne & Hall & _).
  destruct (dec_spec c ltac:(lia)) as (dc & Ec & Hnec & Hallc & _).
  pose proof (py_int_dec h Hh) as Ph. pose proof (py_int_dec c Hc) as Pc.
  rewrite Eh in *. rewrite Ec in *.
  assert (Hne' : forall t, dh ++ t <> []) by (intros t E; apply app_eq_nil in E as [E _]; contradiction).
  split; [|split].
  - rewrite parse_credits_nonempty by apply Hne'. cbv zeta.
    rewrite split_on_app_sep by (now apply digits_no_slash).
    rewrite (split_on_no_sep _ _ (digits_no_slash _ Hallc)).
    cbn [nth]. now rewrite Ph, Pc.
  - rewrite parse_credits_nonempty by exact Hne. cbv zeta.
    rewrite (split_on_no_sep _ _ (digits_no_slash _ Hall)).
    cbn [nth]. now rewrite Ph.
  - rewrite parse_credits_nonempty by apply Hne'. cbv zeta.
    rewrite split_on_app_sep by (now apply digits_no_slash).
    rewrite (split_on_no_sep _ _ Hx).
    cbn [nth]. now rewrite Ph, He.
Qed.

Lemma parse_credits_roundtrip_witness :
  (0 <= 3 < 10 ^ 4300 /\ 0 <= 2 < 10 ^ 4300 /\
   Forall (fun ch => ch <> slash) (lit "x") /\ exists e, py_int (lit "x") = Raise e) /\
  parse_credits (Some (dec 3 ++ slash :: dec 2)) = (Some 3, Some 2) /\
  parse_credits (Some (dec 3)) = (Some 3, None) /\
  parse_credits (Some (dec 3 ++ slash :: lit "x")) = (Some 3, None).
Proof.
  assert (HP : 10 ^ 1 <= 10 ^ 4300) by (apply Z.pow_le_mono_r; lia).
  rewrite Z.pow_1_r in HP.
  assert (H3 : 0 <= 3 < 10 ^ 4300) by lia.
  assert (H2 : 0 <= 2 < 10 ^ 4300) by lia.
  assert (Hx : Forall (fun ch => ch <> slash) (lit "x"))
    by (repeat constructor; unfold slash; simpl; discriminate).
  assert (Hr : exists e, py_int (lit "x") = Raise e) by (exists ValueError; reflexivity).
  split; [auto|].
  exact (parse_credits_roundtrip 3 2 (lit "x") H3 H2 Hx Hr).
Defined.

(** X15: a course that [parse_course_row] returns comes from the row's
    own fields: its year and semester are [int] of the row's year and
    semester cells, its sessions are the non-empty parse of the row's
    schedule, its name is the row's non-empty name without surrounding
    slashes, its instructor likewise, its code is the row's code, and
    its hours and credits are [parse_credits] of the row's credits. *)
Theorem course_row_fields : forall r c,
  parse_course_row r = Ok (Some c) ->
  (exists y, row_year r = Some y /\ py_int y = Ok (c_year c)) /\
  (exists s, row_semester r = Some s /\ py_int s = Ok (c_semester c)) /\
  row_schedule r = Some (c_schedule_str c) /\
  parse_schedule (c_schedule_str c) = Ok (c_schedule_sessions c) /\
  c_schedule_sessions c <> [] /\
  truthy (row_name r) = true /\ c_name c = strip_slashes (row_name r) /\
  c_instructor c = strip_slashes (row_instructor r) /\ c_code c = row_code r /\
  (c_hours c, c_credits c) = parse_credits (row_credits r).
Proof.
  intros r c H. unfold parse_course_row, parse_course_row_body in H.
  destruct (negb (truthy (row_year r) && truthy (row_semester r) && truthy (row_name r)
                  && truthy (row_schedule r))) eqn:T; [discriminate H|].
  apply negb_false_iff in T. apply andb_prop in T as [T Tsch].
  apply andb_prop in T as [T Tn]. apply andb_prop in T as [Ty Ts].
  destruct (row_year r) as [y|]; [|discriminate Ty].
  destruct (row_semester r) as [s|]; [|discriminate Ts].
  destruct (row_schedule r) as [sch|]; [|discriminate Tsch].
  destruct (py_int y) as [yv|ey] eqn:Py; [|destruct ey; discriminate H].
  destruct (py_int s) as [sv|es] eqn:Ps; [|destruct es; discriminate H].
  cbn [exc_bind] in H.
  destruct (parse_schedule sch) as [ss|e] eqn:Psch; [|discriminate H].
  cbn [exc_bind] in H.
  destruct ss as [|s0 ss]; [discriminate H|].
  destruct (parse_credits (row_credits r)) as [hours credits] eqn:Pc.
  injection H as <-. cbn.
  repeat split; eauto; discriminate.
Qed.

Lemma course_row_fields_witness :
  exists c, parse_course_row sample_row = Ok (Some c) /\
    ((exists y, row_year sample_row = Some y /\ py_int y = Ok (c_year c)) /\
     (exists s, row_semester sample_row = Some s /\ py_int s = Ok (c_semester c)) /\
     row_schedule sample_row = Some (c_schedule_str c) /\
     parse_schedule (c_schedule_str c) = Ok (c_schedule_sessions c) /\
     c_schedule_sessions c <> [] /\
     truthy (row_name sample_row) = true /\ c_name c = strip_slashes (row_name sample_row) /\
     c_instructor c = strip_slashes (row_instructor sample_row) /\
     c_code c = row_code sample_row /\
     (c_hours c, c_credits c) = parse_credits (row_credits sample_row)).
Proof.
  destruct (parse_course_row sample_row) as [[c|]|e] eqn:H.
  - exists c; split; [reflexivity|]. exact (course_row_fields sample_row c H).
  - vm_compute in H; discriminate H.
  - vm_compute in H; discriminate H.
Defined.

(** ** Smart-mode fields *)

Lemma has_dash_sep : forall a b, has_dash (a ++ 45 :: b) = true.
Proof.
  intros a b; unfold has_dash; rewrite existsb_app; simpl.
  apply orb_true_r.
Qed.

Lemma nonempty_sep : forall a b, nonempty (a ++ 45 :: b) = true.
Proof. intros [|c a] b; reflexivity. Qed.

(** X16: a row without a year cell but with the combined form
    ["<year>-<semester>"], in its Semester cell or (with no Semester
    cell) in its 學年學期 cell, gives the smart mode the two stripped
    halves as year and semester. *)
Theorem smart_fields_combined : forall r a b,
  year_field r = [] -> Forall (fun c => c <> 45) a -> Forall (fun c => c <> 45) b ->
  (sem_field r = a ++ 45 :: b \/
   (sem_field r = [] /\ get_or r k_year_semester_tw [] = a ++ 45 :: b)) ->
  smart_fields r = (strip_ws a, strip_ws b, schedule_field r).
Proof.
  intros r a b Hy Ha Hb Hs. unfold smart_fields. rewrite Hy.
  assert (Hsp : split_on 45 (a ++ 45 :: b) = [a; b])
    by (rewrite split_on_app_sep, split_on_no_sep; auto).
  destruct Hs as [Hs | [Hs Hc]].
  - rewrite Hs, has_dash_sep, nonempty_sep. cbn [andb orb negb nonempty].
    rewrite has_dash_sep, nonempty_sep. cbn [andb]. rewrite Hsp. reflexivity.
  - rewrite Hs, Hc. cbn [andb orb negb nonempty].
    rewrite has_dash_sep, nonempty_sep. cbn [andb]. rewrite Hsp. reflexivity.
Qed.

Lemma smart_fields_combined_witness :
  smart_fields [(lit "Name", lit "Theory"); (k_year_semester_tw, lit "114 - 1");
                (lit "Schedule", wed_9_11)] = (lit "114", lit "1", wed_9_11).
Proof.
  set (r := [(lit "Name", lit "Theory"); (k_year_semester_tw, lit "114 - 1");
             (lit "Schedule", wed_9_11)]).
  assert (Hy : year_field r = []) by reflexivity.
  assert (Ha : Forall (fun c => c <> 45) (lit "114 ")) by (repeat constructor; discriminate).
  assert (Hb : Forall (fun c => c <> 45) (lit " 1")) by (repeat constructor; discriminate).
  assert (Hs : sem_field r = [] /\ get_or r k_year_semester_tw [] = lit "114 " ++ 45 :: lit " 1")
    by (split; reflexivity).
  rewrite (smart_fields_combined r (lit "114 ") (lit " 1") Hy Ha Hb (or_intror Hs)).
  vm_compute. reflexivity.
Defined.

Lemma py_int_error : forall s e, py_int s = Raise e -> e = ValueError.
Proof.
  intros s e. unfold py_int.
  destruct (match strip_by is_ascii_space (int_text s) with
            | [] => (1, [])
            | c :: r => if c =? 45 then (-1, r) else if c =? 43 then (1, r)
                        else (1, strip_by is_ascii_space (int_text s))
            end) as [sign body].
  destruct (negb (valid_body false body)); [intros H; injection H; auto|].
  destruct (int_max_str_digits <? _); [intros H; injection H; auto|discriminate].
Qed.

Lemma drop_while_stop : forall p l c m, p c = false ->
  exists l', drop_while p (l ++ c :: m) = l' ++ c :: m.
Proof.
  intros p l c m Hc; induction l as [|x l IH]; simpl.
  - rewrite Hc. now exists [].
  - destruct (p x); [exact IH|]. now exists (x :: l).
Qed.

Lemma strip_digit_dash : forall d b, d <> [] ->
  Forall (fun c => is_ascii_digit c = true) d ->
  exists b', strip_by is_ascii_space (d ++ 45 :: b) = d ++ 45 :: b'.
Proof.
  intros d b Hne Hd. unfold strip_by.
  rewrite (drop_while_head is_ascii_space (d ++ 45 :: b)).
  2:{ intros c r E. destruct d as [|c0 d]; [contradiction|]. cbn [app] in E. injection E as <- _.
      apply ascii_digit_not_space. now inversion Hd. }
  rewrite rev_app_distr. cbn [rev]. rewrite <- app_assoc. cbn [app].
  destruct (drop_while_stop is_ascii_space (rev b) 45 (rev d) eq_refl) as [l' E].
  rewrite E, rev_app_distr. cbn [rev]. rewrite rev_involutive, <- app_assoc.
  now exists (rev l').
Qed.

Lemma valid_body_dash : forall ds rest p, Forall (fun c => is_ascii_digit c = true) ds ->
  valid_body p (ds ++ 45 :: rest) = false.
Proof.
  intros ds rest p H; revert p; induction H as [|c ds Hc H IH]; intros p; simpl.
  - reflexivity.
  - rewrite Hc. apply IH.
Qed.

Lemma py_int_digit_dash : forall d b, d <> [] -> Forall (fun c => is_digit c = true) d ->
  py_int (d ++ 45 :: b) = Raise ValueError.
Proof.
  intros d b Hne Hd. unfold py_int.
  destruct (int_text_digits_app d (45 :: b) Hd) as (b1 & E & Hb).
  assert (Hb1 : exists r, b1 = 45 :: r)
    by (destruct Hb as [->| ->]; eexists; reflexivity).
  destruct Hb1 as [r ->]. rewrite E.
  pose proof (digits_ascii d Hd) as Ha.
  assert (Hne' : map (fun c => 48 + digit_val c) d <> [])
    by (destruct d; [contradiction|discriminate]).
  destruct (strip_digit_dash _ r Hne' Ha) as [b' ->].
  destruct (map (fun c => 48 + digit_val c) d) as [|c d'] eqn:Ed; [contradiction|].
  assert (Hc : is_ascii_digit c = true) by (now inversion Ha).
  apply andb_prop in Hc as [H1 H2]. apply Z.leb_le in H1, H2.
  cbn [app].
  replace (c =? 45) with false by (symmetry; apply Z.eqb_neq; lia).
  replace (c =? 43) with false by (symmetry; apply Z.eqb_neq; lia).
  change (c :: d' ++ 45 :: b') with ((c :: d') ++ 45 :: b').
  rewrite valid_body_dash by exact Ha. reflexivity.
Qed.

(** X17: a row with a year cell whose Semester cell holds the combined
    form ["<digits>-..."] gets no smart-mode blocks: the combined form is
    only split when the year is empty, and [int] of it raises the
    [ValueError] that the smart mode catches. *)
Theorem smart_blocks_year_with_combined_semester : forall db r d b,
  year_field r <> [] -> d <> [] -> Forall (fun c => is_digit c = true) d ->
  sem_field r = d ++ 45 :: b ->
  smart_row_blocks db r = Ok [].
Proof.
  intros db r d b Hy Hne Hd Hs. unfold smart_row_blocks, smart_fields.
  rewrite Hs.
  destruct (year_field r) as [|y ys] eqn:Ey; [contradiction|].
  cbn [andb orb negb nonempty].
  destruct (schedule_field r) as [|s0 ss]; unfold smart_mode_strs;
    destruct (d ++ 45 :: b) as [|x xs] eqn:Ed;
    try (destruct d; discriminate Ed); [reflexivity|].
  rewrite <- Ed. unfold catch_value_error.
  destruct (py_int (y :: ys)) as [yv|e] eqn:Py.
  - cbn [exc_bind]. rewrite py_int_digit_dash by assumption. reflexivity.
  - cbn [exc_bind]. now rewrite (py_int_error _ _ Py).
Qed.

Lemma smart_blocks_year_with_combined_semester_witness :
  smart_row_blocks SEMESTER_DATABASE
    [(lit "Year", lit "114"); (lit "Semester", lit "114-1"); (lit "Schedule", wed_9_11)] = Ok [].
Proof.
  apply (smart_blocks_year_with_combined_semester _ _ (lit "114") (lit "1")).
  - discriminate.
  - discriminate.
  - repeat constructor.
  - reflexivity.
Defined.

(** ** Notion properties of a CSV row *)

Lemma dict_set_forall {K V : Type} (eqb : K -> K -> bool) (P : V -> Prop) :
  forall d k v, Forall (fun kv => P (snd kv)) d -> P v ->
  Forall (fun kv => P (snd kv)) (dict_set eqb k v d).
Proof.
  induction d as [|[k0 v0] d IH]; intros k v H Hv; simpl.
  - repeat constructor; exact Hv.
  - inversion H as [|? ? H0 H1]; subst.
    destruct (eqb k k0); constructor; auto.
Qed.

Lemma day_map_nonempty : forall c d, dict_get pystr_eqb c day_map_zh = Some d -> d <> [].
Proof.
  intros c d Hg. destruct (dict_get_in _ _ _ _ Hg) as (k & Hin & _).
  unfold day_map_zh in Hin. simpl in Hin.
  repeat match goal with H : _ \/ _ |- _ => destruct H as [H|H] end;
    try contradiction; injection Hin; intros; subst; discriminate.
Qed.

Lemma build_step_inv : forall lower props kv,
  Forall (fun kp => prop_text (snd kp) <> []) props ->
  Forall (fun kp => prop_text (snd kp) <> []) (build_step lower props kv).
Proof.
  intros lower props [k [v|]] H; unfold build_step; cbn [snd fst]; [|exact H].
  destruct (strip_ws v) as [|c rest] eqn:Ev; [exact H|].
  destruct (in_keys _ skip_keys).
  - destruct (pystr_eqb _ _); [|exact H].
    destruct (dict_get pystr_eqb [c] day_map_zh) as [d|] eqn:Ed; [|exact H].
    apply (dict_set_forall _ (fun p => prop_text p <> [])); [exact H|].
    simpl. exact (day_map_nonempty _ _ Ed).
  - destruct (in_keys _ title_keys); [|destruct (in_keys _ select_keys)];
      (apply (dict_set_forall _ (fun p => prop_text p <> [])); [exact H|discriminate]).
Qed.

Lemma build_fold_inv : forall lower r props,
  Forall (fun kp => prop_text (snd kp) <> []) props ->
  Forall (fun kp => prop_text (snd kp) <> []) (fold_left (build_step lower) r props).
Proof.
  intros lower r; induction r as [|kv r IH]; intros props H; simpl; [exact H|].
  apply IH, build_step_inv, H.
Qed.

(** X18: [_build_properties_from_csv_row] never builds a property with
    empty text: missing and blank cells are skipped, and every property
    built holds a non-empty text. *)
Theorem build_properties_nonempty : forall lower r k p,
  dict_get pystr_eqb k (build_properties_from_csv_row lower r) = Some p ->
  prop_text p <> [].
Proof.
  intros lower r k p H. destruct (dict_get_in _ _ _ _ H) as (k' & Hin & _).
  pose proof (build_fold_inv lower r [] (Forall_nil _)) as Hall.
  rewrite Forall_forall in Hall. exact (Hall (k', p) Hin).
Qed.

Lemma build_properties_nonempty_witness :
  dict_get pystr_eqb (lit "Course Name")
    (build_properties_from_csv_row ascii_lower
       [(65279 :: lit "Name", Some (lit " Theory ")); (lit "Code", Some (lit "  "));
        (lit "Instructor", None)]) = Some (PTitle (lit "Theory")) /\
  prop_text (PTitle (lit "Theory")) <> [].
Proof.
  assert (H : dict_get pystr_eqb (lit "Course Name")
    (build_properties_from_csv_row ascii_lower
       [(65279 :: lit "Name", Some (lit " Theory ")); (lit "Code", Some (lit "  "));
        (lit "Instructor", None)]) = Some (PTitle (lit "Theory"))) by (vm_compute; reflexivity).
  split; [exact H|]. exact (build_properties_nonempty _ _ _ _ H).
Defined.

Lemma pystr_eqb_refl : forall a, pystr_eqb a a = true.
Proof. induction a as [|x a IH]; simpl; [reflexivity|]. now rewrite Z.eqb_refl, IH. Qed.

Lemma dict_get_set_str {V : Type} : forall (d : list (pystr * V)) k v k',
  dict_get pystr_eqb k' (dict_set pystr_eqb k v d) =
    if pystr_eqb k' k then Some v else dict_get pystr_eqb k' d.
Proof.
  induction d as [|[k0 v0] d IH]; intros k v k'; simpl.
  - destruct (pystr_eqb k' k); reflexivity.
  - destruct (pystr_eqb k k0) eqn:E; simpl.
    + apply pystr_eqb_eq in E; subst k0. destruct (pystr_eqb k' k); reflexivity.
    + rewrite IH. destruct (pystr_eqb k' k0) eqn:F; [|reflexivity].
      apply pystr_eqb_eq in F; subst k0.
      destruct (pystr_eqb k' k) eqn:G; [|reflexivity].
      apply pystr_eqb_eq in G; subst k'. now rewrite pystr_eqb_refl in E.
Qed.

(** X19: a schedule cell only sets the Day property, to the weekday of
    its first character: other properties are unchanged, and a later
    weekday in the same cell is not recorded. *)
Theorem build_properties_schedule_day : forall lower r k v c rest d,
  lower (strip_ws (drop_while (Z.eqb 65279) k)) = lit "schedule" ->
  strip_ws v = c :: rest -> dict_get pystr_eqb [c] day_map_zh = Some d ->
  dict_get pystr_eqb (lit "Day") (build_properties_from_csv_row lower (r ++ [(k, Some v)]))
    = Some (PSelect d) /\
  forall k', k' <> lit "Day" ->
    dict_get pystr_eqb k' (build_properties_from_csv_row lower (r ++ [(k, Some v)])) =
    dict_get pystr_eqb k' (build_properties_from_csv_row lower r).
Proof.
  intros lower r k v c rest d Hk Hv Hd.
  unfold build_properties_from_csv_row. rewrite fold_left_app. cbn [fold_left].
  assert (Es : forall props, build_step lower props (k, Some v) =
                            dict_set pystr_eqb (lit "Day") (PSelect d) props).
  { intros props. unfold build_step. cbn [fst snd]. rewrite Hv, Hk.
    change (in_keys (lit "schedule") skip_keys) with true.
    change (pystr_eqb (lit "schedule") (lit "schedule")) with true. cbv iota.
    rewrite Hd. reflexivity. }
  rewrite Es. split.
  - rewrite dict_get_set_str. reflexivity.
  - intros k' Hne. rewrite dict_get_set_str.
    destruct (pystr_eqb k' (lit "Day")) eqn:E; [|reflexivity].
    apply pystr_eqb_eq in E. contradiction.
Qed.

Lemma build_properties_schedule_day_witness :
  dict_get pystr_eqb (lit "Day")
    (build_properties_from_csv_row ascii_lower
       ([(lit "Name", Some (lit "Theory"))] ++
        [(lit "Schedule", Some [32; ch_wed; 57; 44; ch_fri; 52])]))
    = Some (PSelect (lit "Wed")).
Proof.
  refine (proj1 (build_properties_schedule_day ascii_lower [(lit "Name", Some (lit "Theory"))]
            (lit "Schedule") [32; ch_wed; 57; 44; ch_fri; 52] ch_wed [57; 44; ch_fri; 52]
            (lit "Wed") _ _ _)); vm_compute; reflexivity.
Defined.
